(** * kubernetes-secret-generator: the annotation-driven generation engine

    A shallow embedding of [pkg/controller/secret/secret_controller.go] and of
    the String generator that lives next to it, followed by the properties
    the specification states about them.

    Go values are modelled as follows.
    - [int] is [Z]; no arithmetic is performed on lengths, so no wrap-around
      appears.
    - [string] is [string]; [[]byte] is [list byte].  A nil and an empty byte
      slice are identified.
    - [map[string]T] is [option (gmap string T)]: [None] is the nil map, which
      reads as empty, ignores [delete] and panics on assignment.
    - [(T, error)] results are pairs [T * option error].
    - A function that mutates what a pointer refers to, or reads the entropy
      source, is a state transformer that may panic. *)

From Stdlib Require Import ZArith NArith Lia Strings.Ascii Strings.String Strings.Byte List.
From Stdlib Require Import DecimalString.
From stdpp Require Import base option list gmap strings.

Local Open Scope string_scope.
Local Open Scope Z_scope.

(** ** The parts of Go's standard library the controller calls *)

Module Go.

(** [[]byte(s)] *)
Definition bytes_of (s : string) : list byte := list_byte_of_string s.

(** [len(x)] as an [int]. *)
Definition len {A} (l : list A) : Z := Z.of_nat (length l).

(** [s[0:n]]: the slice expression panics ([None]) outside [0 <= n <= len(s)]. *)
Definition slice_to {A} (s : list A) (n : Z) : option (list A) :=
  if (0 <=? n) && (n <=? len s) then Some (take (Z.to_nat n) s) else None.

(** *** encoding/hex *)

Definition hextable : list byte := bytes_of "0123456789abcdef".

Definition digit (table : list byte) (i : N) : byte :=
  nth (N.to_nat i) table "="%byte.

(** [hex.EncodeToString]: two lowercase digits per byte. *)
Fixpoint hex_EncodeToString (src : list byte) : list byte :=
  match src with
  | [] => []
  | v :: rest =>
      digit hextable (N.shiftr (Byte.to_N v) 4)
      :: digit hextable (N.land (Byte.to_N v) 15)
      :: hex_EncodeToString rest
  end.

(** *** encoding/base64 *)

Definition encodeStd : list byte :=
  bytes_of "ABCDEFGHIJKLMNOPQRSTUVWXYZabcdefghijklmnopqrstuvwxyz0123456789+/".
Definition encodeURL : list byte :=
  bytes_of "ABCDEFGHIJKLMNOPQRSTUVWXYZabcdefghijklmnopqrstuvwxyz0123456789-_".

Definition StdPadding : byte := "="%byte.

(** The 24-bit group [b0<<16 | b1<<8 | b2]. *)
Definition group24 (b0 b1 b2 : byte) : N :=
  N.lor (N.shiftl (Byte.to_N b0) 16)
        (N.lor (N.shiftl (Byte.to_N b1) 8) (Byte.to_N b2)).

Definition sextet (enc : list byte) (val : N) (shift : N) : byte :=
  digit enc (N.land (N.shiftr val shift) 63).

(** [EncodeToString] of a padded base64 encoding: every three source
    bytes give four digits, and a final group of one or two bytes is
    completed with the padding character. *)
Fixpoint base64_EncodeToString (enc : list byte) (src : list byte) : list byte :=
  match src with
  | [] => []
  | [b0] =>
      let val := group24 b0 "000" "000" in
      [sextet enc val 18; sextet enc val 12; StdPadding; StdPadding]
  | [b0; b1] =>
      let val := group24 b0 b1 "000" in
      [sextet enc val 18; sextet enc val 12; sextet enc val 6; StdPadding]
  | b0 :: b1 :: b2 :: rest =>
      let val := group24 b0 b1 b2 in
      sextet enc val 18 :: sextet enc val 12 :: sextet enc val 6
      :: sextet enc val 0 :: base64_EncodeToString enc rest
  end.

(** *** encoding/base32 *)

Definition encodeStd32 : list byte := bytes_of "ABCDEFGHIJKLMNOPQRSTUVWXYZ234567".

(** The 40-bit group of five source bytes. *)
Definition group40 (b0 b1 b2 b3 b4 : byte) : N :=
  N.lor (N.shiftl (Byte.to_N b0) 32)
   (N.lor (N.shiftl (Byte.to_N b1) 24)
     (N.lor (N.shiftl (Byte.to_N b2) 16)
       (N.lor (N.shiftl (Byte.to_N b3) 8) (Byte.to_N b4)))).

Definition quintet (val : N) (i : N) : byte :=
  digit encodeStd32 (N.land (N.shiftr val (35 - 5 * i)) 31).

Definition quintets (val : N) (count : nat) : list byte :=
  map (fun i => quintet val (N.of_nat i)) (seq 0 count).

(** [base32.StdEncoding.EncodeToString]: every five source bytes give eight
    digits; a final group of 1, 2, 3 or 4 bytes gives 2, 4, 5 or 7 digits
    and is padded to eight characters. *)
Fixpoint base32_EncodeToString (src : list byte) : list byte :=
  match src with
  | [] => []
  | [b0] =>
      quintets (group40 b0 "000" "000" "000" "000") 2 ++ replicate 6 StdPadding
  | [b0; b1] =>
      quintets (group40 b0 b1 "000" "000" "000") 4 ++ replicate 4 StdPadding
  | [b0; b1; b2] =>
      quintets (group40 b0 b1 b2 "000" "000") 5 ++ replicate 3 StdPadding
  | [b0; b1; b2; b3] =>
      quintets (group40 b0 b1 b2 b3 "000") 7 ++ replicate 1 StdPadding
  | b0 :: b1 :: b2 :: b3 :: b4 :: rest =>
      quintets (group40 b0 b1 b2 b3 b4) 8 ++ base32_EncodeToString rest
  end.

(** *** strings *)

Definition comma : ascii := ","%char.

(** [strings.Split(s, ",")]: the substrings between the commas; a string
    without a comma, the empty one included, gives one element. *)
Fixpoint Split_comma (s : string) : list string :=
  match s with
  | EmptyString => [EmptyString]
  | String c rest =>
      if Ascii.eqb c comma then EmptyString :: Split_comma rest
      else match Split_comma rest with
           | [] => [String c EmptyString]
           | first :: others => String c first :: others
           end
  end.

(** *** bytes *)

Fixpoint HasPrefix (s prefix : list byte) : bool :=
  match prefix, s with
  | [], _ => true
  | p :: prefix', c :: s' => Byte.eqb p c && HasPrefix s' prefix'
  | _ :: _, [] => false
  end.

(** The scan of [bytes.ReplaceAll] for a non-empty [old]: [skip] counts the
    bytes of a match that are still to be stepped over. *)
Fixpoint replace_from (skip : nat) (s old new : list byte) : list byte :=
  match s with
  | [] => []
  | c :: rest =>
      match skip with
      | S k => replace_from k rest old new
      | O =>
          if HasPrefix s old
          then new ++ replace_from (length old - 1) rest old new
          else c :: replace_from 0 rest old new
      end
  end.

(** [bytes.ReplaceAll(s, old, new)], as the controller uses it (with the
    non-empty [old] ["${SECRET}"]): the non-overlapping occurrences of [old],
    found from the left, are replaced by [new]. *)
Definition ReplaceAll (s old new : list byte) : list byte :=
  replace_from 0 s old new.

(** *** strconv *)

(** [strconv.Itoa] *)
Definition Itoa (i : Z) : string := NilZero.string_of_int (Z.to_int i).

End Go.

(** ** Data model *)

#[global] Instance byte_eq_dec : EqDecision byte := Byte.byte_eq_dec.

(** Go [error] values: the ones built by [errors.New] and [fmt.Errorf], and
    the status errors of the API machinery, of which the controller only asks
    whether they say "not found". *)
Inductive error : Type :=
  | errorString (msg : string)
  | StatusError (notFound : bool) (msg : string).

#[global] Instance error_eq_dec : EqDecision error.
Proof. solve_decision. Defined.

(** [errors.IsNotFound] *)
Definition IsNotFound (err : error) : bool :=
  match err with
  | StatusError notFound _ => notFound
  | errorString _ => false
  end.

(** [reconcile.Result]; [RequeueAfter] is a [time.Duration], in nanoseconds. *)
Record Result : Type := mkResult { Requeue : bool; RequeueAfter : Z }.

#[global] Instance Result_eq_dec : EqDecision Result.
Proof. solve_decision. Defined.

(** [reconcile.Result{}] *)
Definition Result_zero : Result := {| Requeue := false; RequeueAfter := 0 |}.

(** [time.Second] *)
Definition Second : Z := 1000000000.

(** The two maps of a [corev1.Secret] the controller works on. *)
Record Secret : Type := mkSecret {
  Annotations : option (gmap string string);
  Data : option (gmap string (list byte))
}.

#[global] Instance Secret_eq_dec : EqDecision Secret.
Proof. solve_decision. Defined.

(** [val, ok := m[k]] *)
Definition index {V} (m : option (gmap string V)) (k : string) : option V :=
  match m with
  | Some entries => entries !! k
  | None => None
  end.

(** [m[k] = v] panics ([None]) on a nil map. *)
Definition assign {V} (m : option (gmap string V)) (k : string) (v : V)
  : option (option (gmap string V)) :=
  match m with
  | Some entries => Some (Some (<[k := v]> entries))
  | None => None
  end.

(** [delete(m, k)] is a no-op on a nil map. *)
Definition delete_key {V} (m : option (gmap string V)) (k : string)
  : option (gmap string V) :=
  match m with
  | Some entries => Some (delete k entries)
  | None => None
  end.

(** [reflect.DeepEqual] on two maps: a nil map equals only a nil map. *)
Definition DeepEqual {V} `{EqDecision V} (a b : option (gmap string V)) : bool :=
  bool_decide (a = b).

(** ** Computations that mutate a state and may panic *)

Inductive exec (St A : Type) : Type :=
  | Done (a : A) (st : St)
  | Panic.
Arguments Done {St A} a st.
Arguments Panic {St A}.

Definition M (St A : Type) : Type := St -> exec St A.

Definition ret {St A} (a : A) : M St A := fun st => Done a st.

Definition bind {St A B} (m : M St A) (k : A -> M St B) : M St B :=
  fun st =>
    match m st with
    | Done a st' => k a st'
    | Panic => Panic
    end.

Definition panic {St A} : M St A := fun _ => Panic.

Notation "'let*' x ':=' m 'in' k" := (bind m (fun x => k))
  (at level 10, x pattern, m at level 100, k at level 200).

(** ** What the source takes from outside this file *)

(** The annotation keys and the type tags are constants the package declares
    next to the controller.  The keys are pairwise distinct, and so are the
    tags, none of which is the empty (unset) type; [TypeString] is the literal
    the controller writes when it defaults a resource's type. *)
Class Constants : Type := {
  AnnotationSecretType : string;
  AnnotationSecretAutoGenerate : string;
  AnnotationSecretLength : string;
  AnnotationSecretEncoding : string;
  AnnotationSecretTemplate : string;
  AnnotationSecretRegenerate : string;
  AnnotationSecretSecure : string;
  AnnotationSecretAutoGeneratedAt : string;
  TypeSSHKeypair : string;
  TypeBasicAuth : string;
  annotation_keys_distinct :
    NoDup [AnnotationSecretType; AnnotationSecretAutoGenerate;
           AnnotationSecretLength; AnnotationSecretEncoding;
           AnnotationSecretTemplate; AnnotationSecretRegenerate;
           AnnotationSecretSecure; AnnotationSecretAutoGeneratedAt];
  type_tags_distinct : NoDup [""; "string"; TypeSSHKeypair; TypeBasicAuth]
}.

(** Modelled from the spec: the constant for the String variant is declared
    outside the controller file; its value is the one the type annotation
    receives on defaulting. *)
Definition TypeString : string := "string".

(** Modelled from the spec: [Type.Validate] is declared outside the controller
    file.  The type tag is one of String, SSHKeypair and BasicAuth, and every
    other value, the unset one included, is invalid. *)
Definition Validate `{Constants} (st : string) : option error :=
  if bool_decide (st ∈ [TypeString; TypeSSHKeypair; TypeBasicAuth]) then None
  else Some (errorString (st ++ " is not a valid secret type")).

(** The process-wide settings read through viper. *)
Class Config : Type := {
  RegenerateInsecure : bool;
  DefaultLength : Z;
  DefaultEncoding : string;
  SSHKeyLength : Z
}.

(** [crypto/rand]: [rand_Read n] is [rand.Read] on a buffer of [n] bytes; it
    gives the buffer afterwards and the error, and moves the source on. *)
Class Entropy : Type := {
  Rand : Type;
  rand_Read : nat -> Rand -> (list byte * option error) * Rand;
  rand_Read_length : forall n r, length (rand_Read n r).1.1 = n
}.

(** [ParseByteLength] is declared outside the controller file: from the
    fallback and the text of the length annotation it gives the length,
    whether that length counts bytes, and an error. *)
Class LengthParser : Type := {
  ParseByteLength : Z -> string -> (Z * bool) * option error
}.

(** ** Annotation accessors *)

Section Accessors.
Context `{Constants}.

Definition GetLengthFromAnnotation (fallback : Z)
    (annotations : option (gmap string string)) : string * option error :=
  let l := fallback in
  match index annotations AnnotationSecretLength with
  | Some val => (val, None)
  | None => (Go.Itoa l, None)
  end.

Definition getEncodingFromAnnotation (fallback : string)
    (annotations : option (gmap string string)) : string * option error :=
  match index annotations AnnotationSecretEncoding with
  | Some val => (val, None)
  | None => (fallback, None)
  end.

Definition getTemplateFromAnnotation (fallback : string)
    (annotations : option (gmap string string)) : string * option error :=
  match index annotations AnnotationSecretTemplate with
  | Some val => (val, None)
  | None => (fallback, None)
  end.
End Accessors.

(** ** The random value encoder *)

Section Encoder.
Context `{Entropy}.

(** The [switch] on the encoding, for the cases that encode: ["raw"] returns
    before it reaches this point. *)
Definition encode (encoding : string) (b : list byte) : list byte :=
  if String.eqb encoding "base64url" then Go.base64_EncodeToString Go.encodeURL b
  else if String.eqb encoding "base32" then Go.base32_EncodeToString b
  else if String.eqb encoding "hex" then Go.hex_EncodeToString b
  else Go.base64_EncodeToString Go.encodeStd b.

(** [GenerateRandomString]; [make] panics on a negative length, and so does
    the final slice expression when the length exceeds the encoded text. *)
Definition GenerateRandomString (length : Z) (encoding : string) (lenBytes : bool)
  : M Rand (list byte * option error) :=
  fun r =>
    if length <? 0 then Panic
    else
      let '(b, err, r') := rand_Read (Z.to_nat length) r in
      match err with
      | Some e => Done ([], Some e) r'
      | None =>
          if String.eqb encoding "raw" then Done (b, None) r'
          else
            let encodedString := encode encoding b in
            if lenBytes then Done (encodedString, None) r'
            else
              match Go.slice_to encodedString length with
              | Some trimmed => Done (trimmed, None) r'
              | None => Panic
              end
      end.
End Encoder.

(** ** The String generator *)

(** [ensureUniqueness], with the set of the elements seen so far. *)
Fixpoint ensureUniqueness_from (set : gmap string bool) (a : list string)
  : option error :=
  match a with
  | [] => None
  | e :: rest =>
      if default false (set !! e)
      then Some (errorString ("duplicate element " ++ e ++ " found"))
      else ensureUniqueness_from (<[e := true]> set) rest
  end.

Definition ensureUniqueness (a : list string) : option error :=
  ensureUniqueness_from ∅ a.

Fixpoint contains (s : list string) (e : string) : bool :=
  match s with
  | [] => false
  | a :: rest => if String.eqb a e then true else contains rest e
  end.

(** What a generator works on: the Secret behind the pointer it is handed,
    and the entropy source. *)
Record GenState `{Entropy} : Type := mkGenState { inst : Secret; rng : Rand }.

(** [secretConfig]; its [instance] pointer is the [inst] of the state. *)
Record secretConfig : Type := mkSecretConfig {
  key : string;
  length_ : Z;
  isByteLength : bool
}.

(** The interface the three generators implement. *)
Record Generator `{Entropy} : Type := mkGenerator {
  generateData : M GenState (Result * option error)
}.

Section StringGenerator.
Context `{Constants} `{Config} `{Entropy} `{LengthParser}.

Definition get_instance : M GenState Secret := fun w => Done (inst w) w.

(** [instance.Data[key] = value] *)
Definition set_Data (key : string) (value : list byte) : M GenState unit :=
  fun w =>
    match assign (Data (inst w)) key value with
    | Some data =>
        Done tt {| inst := {| Annotations := Annotations (inst w); Data := data |};
                   rng := rng w |}
    | None => Panic
    end.

(** [instance.Annotations[key] = value] *)
Definition set_Annotation (key value : string) : M GenState unit :=
  fun w =>
    match assign (Annotations (inst w)) key value with
    | Some annotations =>
        Done tt {| inst := {| Annotations := annotations; Data := Data (inst w) |};
                   rng := rng w |}
    | None => Panic
    end.

(** [delete(instance.Annotations, key)] *)
Definition delete_Annotation (key : string) : M GenState unit :=
  fun w =>
    Done tt {| inst := {| Annotations := delete_key (Annotations (inst w)) key;
                          Data := Data (inst w) |};
               rng := rng w |}.

(** A computation on the entropy source alone. *)
Definition with_rng {A} (m : M Rand A) : M GenState A :=
  fun w =>
    match m (rng w) with
    | Done a r => Done a {| inst := inst w; rng := r |}
    | Panic => Panic
    end.

Definition templateKey : string := "${SECRET}".

Definition generateRandomSecret (conf : secretConfig) : M GenState (option error) :=
  let key := key conf in
  let length := length_ conf in
  let isByteLength := isByteLength conf in
  let* instance := get_instance in
  let '(encoding, err) :=
    getEncodingFromAnnotation DefaultEncoding (Annotations instance) in
  match err with
  | Some e => ret (Some e)
  | None =>
      let* (value, err) := with_rng (GenerateRandomString length encoding isByteLength) in
      match err with
      | Some e => ret (Some e)
      | None =>
          let '(template, err) :=
            getTemplateFromAnnotation templateKey (Annotations instance) in
          match err with
          | Some e => ret (Some e)
          | None =>
              let value :=
                Go.ReplaceAll (Go.bytes_of template) (Go.bytes_of templateKey) value in
              let* _ := set_Data key value in
              ret None
          end
      end
  end.

(** The [for _, key := range genKeys] loop of [regenerateKeysWhereRequired]:
    it gives the count of generated fields and the error that ended it. *)
Fixpoint generate_keys (regenKeys : list string) (parsedLength : Z)
    (isByteLength : bool) (generatedCount : Z) (keys : list string)
  : M GenState (Z * option error) :=
  match keys with
  | [] => ret (generatedCount, None)
  | key :: rest =>
      let* instance := get_instance in
      if negb (Go.len (default [] (index (Data instance) key)) =? 0)
         && negb (contains regenKeys key)
      then generate_keys regenKeys parsedLength isByteLength generatedCount rest
      else
        let generatedCount := generatedCount + 1 in
        let* err := generateRandomSecret
                      {| key := key; length_ := parsedLength;
                         isByteLength := isByteLength |} in
        match err with
        | Some e => ret (generatedCount, Some e)
        | None =>
            generate_keys regenKeys parsedLength isByteLength generatedCount rest
        end
  end.

(** The keys to regenerate, as the first [if] of
    [regenerateKeysWhereRequired] chooses them. *)
Definition regeneration_keys (genKeys : list string) : M GenState (list string) :=
  let* instance := get_instance in
  if negb (bool_decide (is_Some (index (Annotations instance) AnnotationSecretSecure)))
     && RegenerateInsecure
  then ret genKeys
  else
    match index (Annotations instance) AnnotationSecretRegenerate with
    | Some regenerate =>
        let* _ := delete_Annotation AnnotationSecretRegenerate in
        if String.eqb regenerate "yes" then ret genKeys
        else ret (Go.Split_comma regenerate)
    | None => ret []
    end.

Definition regenerateKeysWhereRequired (genKeys : list string)
  : M GenState (Result * option error) :=
  let* regenKeys := regeneration_keys genKeys in
  let* instance := get_instance in
  let '(length, err) := GetLengthFromAnnotation DefaultLength (Annotations instance) in
  match err with
  | Some e => ret (Result_zero, Some e)
  | None =>
      let '(parsedLength, isByteLength, err) := ParseByteLength DefaultLength length in
      match err with
      | Some e => ret (Result_zero, Some e)
      | None =>
          let* (generatedCount, err) :=
            generate_keys regenKeys parsedLength isByteLength 0 genKeys in
          match err with
          | Some e =>
              ret ({| Requeue := false; RequeueAfter := Second * 30 |}, Some e)
          | None =>
              let* _ :=
                if generatedCount =? Go.len genKeys
                then set_Annotation AnnotationSecretSecure "yes"
                else ret tt in
              ret (Result_zero, None)
          end
      end
  end.

Definition StringGenerator_generateData : M GenState (Result * option error) :=
  let* instance := get_instance in
  let toGenerate :=
    default "" (index (Annotations instance) AnnotationSecretAutoGenerate) in
  let genKeys := Go.Split_comma toGenerate in
  match ensureUniqueness genKeys with
  | Some err => ret (Result_zero, Some err)
  | None => regenerateKeysWhereRequired genKeys
  end.

Definition StringGenerator : Generator :=
  {| generateData := StringGenerator_generateData |}.
End StringGenerator.

(** ** The reconciliation controller *)

(** The API-server client: [Get] gives the object and the error, [Update] the
    error; both may change the state of the server. *)
Class Client : Type := {
  Api : Type;
  client_Get : string -> Api -> (Secret * option error) * Api;
  client_Update : Secret -> Api -> option error * Api
}.

(** The SSH-keypair and basic-auth generators are declared outside the
    controller file; the controller only dispatches to them. *)
Class Siblings `{Entropy} : Type := {
  SSHKeypairGenerator : Generator;
  BasicAuthGenerator : Generator
}.

(** What a reconciliation pass works on.  [updated] records the objects
    handed to [Update], in call order; the code does not read it. *)
Record ReconState `{Entropy} `{Client} : Type := mkReconState {
  api : Api;
  entropy : Rand;
  updated : list Secret
}.

Section Controller.
Context `{Constants} `{Config} `{Entropy} `{LengthParser} `{Client} `{!Siblings}.

(** [r.client.Get(ctx, name, instance)] *)
Definition do_Get (name : string) : M ReconState (Secret * option error) :=
  fun w =>
    let '(instance, err, api') := client_Get name (api w) in
    Done (instance, err) {| api := api'; entropy := entropy w; updated := updated w |}.

(** [r.client.Update(ctx, desired)] *)
Definition do_Update (desired : Secret) : M ReconState (option error) :=
  fun w =>
    let '(err, api') := client_Update desired (api w) in
    Done err {| api := api'; entropy := entropy w;
                updated := updated w ++ [desired] |}.

(** [generator.generateData(desired)]: the generator runs on [desired] and
    the entropy source; the call gives its results and [desired] afterwards. *)
Definition call_generateData (generator : Generator) (desired : Secret)
  : M ReconState (Result * option error * Secret) :=
  fun w =>
    match generateData generator {| inst := desired; rng := entropy w |} with
    | Done (res, err) g =>
        Done (res, err, inst g)
             {| api := api w; entropy := rng g; updated := updated w |}
    | Panic => Panic
    end.

(** The [switch sType]; [None] is its [default] case. *)
Definition select_generator (sType : string) : option Generator :=
  if String.eqb sType TypeSSHKeypair then Some SSHKeypairGenerator
  else if String.eqb sType TypeString then Some StringGenerator
  else if String.eqb sType TypeBasicAuth then Some BasicAuthGenerator
  else None.

(** [Reconcile] from the point where the type is resolved. *)
Definition reconcile_typed (now : string) (instance desired : Secret)
    (sType : string) : M ReconState (Result * option error) :=
  let desired :=
    match Data desired with
    | None => {| Annotations := Annotations desired; Data := Some ∅ |}
    | Some _ => desired
    end in
  match select_generator sType with
  | None =>
      ret ({| Requeue := true; RequeueAfter := 0 |},
           Some (errorString "SecretTypeNotSpecified"))
  | Some generator =>
      let* (res, err, desired) := call_generateData generator desired in
      match err with
      | Some e => ret (res, Some e)
      | None =>
          if negb (DeepEqual (Annotations instance) (Annotations desired))
             || negb (DeepEqual (Data instance) (Data desired))
          then
            match assign (Annotations desired) AnnotationSecretAutoGeneratedAt now with
            | None => panic
            | Some annotations =>
                let desired := {| Annotations := annotations; Data := Data desired |} in
                let* err := do_Update desired in
                match err with
                | Some e => ret ({| Requeue := true; RequeueAfter := 0 |}, Some e)
                | None => ret (Result_zero, None)
                end
            end
          else ret (Result_zero, None)
      end
  end.

(** [Reconcile]; [now] is [time.Now().Format(time.RFC3339)]. *)
Definition Reconcile (request : string) (now : string)
  : M ReconState (Result * option error) :=
  let* (instance, err) := do_Get request in
  match err with
  | Some e =>
      if IsNotFound e then ret (Result_zero, None)
      else ret (Result_zero, Some e)
  | None =>
      let desired := instance in
      let sType := default "" (index (Annotations desired) AnnotationSecretType) in
      match Validate sType with
      | Some _ =>
          if negb (bool_decide (is_Some (index (Annotations desired)
                                               AnnotationSecretAutoGenerate)))
             && String.eqb sType ""
          then ret (Result_zero, None)
          else
            match assign (Annotations desired) AnnotationSecretType TypeString with
            | None => panic
            | Some annotations =>
                reconcile_typed now instance
                  {| Annotations := annotations; Data := Data desired |} TypeString
            end
      | None => reconcile_typed now instance desired sType
      end
  end.
End Controller.

(** ** The directive a pass derives from a resource

    The values the String generator computes from the annotations before
    and while it generates, named so that the properties can refer to
    them.  Each one is the expression the code evaluates. *)

Section Directive.
Context `{Constants} `{Config} `{Entropy} `{LengthParser}.

(** [genKeys] of [generateData]. *)
Definition fields_to_generate (s : Secret) : list string :=
  Go.Split_comma (default "" (index (Annotations s) AnnotationSecretAutoGenerate)).

(** The first condition of [regenerateKeysWhereRequired]: no secure marker
    while the policy regenerates insecure values. *)
Definition insecure_forced (s : Secret) : bool :=
  negb (bool_decide (is_Some (index (Annotations s) AnnotationSecretSecure)))
  && RegenerateInsecure.

(** [regenKeys] once the first [if] of [regenerateKeysWhereRequired] is over. *)
Definition regeneration_set (s : Secret) : list string :=
  if insecure_forced s then fields_to_generate s
  else
    match index (Annotations s) AnnotationSecretRegenerate with
    | Some regenerate =>
        if String.eqb regenerate "yes" then fields_to_generate s
        else Go.Split_comma regenerate
    | None => []
    end.

(** The resource once that [if] is over: the regeneration request is gone
    where the second branch was taken. *)
Definition request_consumed (s : Secret) : Secret :=
  if insecure_forced s then s
  else
    match index (Annotations s) AnnotationSecretRegenerate with
    | Some _ =>
        {| Annotations := delete_key (Annotations s) AnnotationSecretRegenerate;
           Data := Data s |}
    | None => s
    end.

(** The condition under which the loop leaves a field alone. *)
Definition keeps_field (regenKeys : list string) (s : Secret) (key : string) : bool :=
  negb (Go.len (default [] (index (Data s) key)) =? 0)
  && negb (contains regenKeys key).

(** The text of the length, and what [ParseByteLength] makes of it. *)
Definition length_text (s : Secret) : string :=
  (GetLengthFromAnnotation DefaultLength (Annotations s)).1.

Definition parsed_length (s : Secret) : (Z * bool) * option error :=
  ParseByteLength DefaultLength (length_text s).

Definition encoding_of (s : Secret) : string :=
  (getEncodingFromAnnotation DefaultEncoding (Annotations s)).1.

Definition template_of (s : Secret) : string :=
  (getTemplateFromAnnotation templateKey (Annotations s)).1.

(** The value stored for a generated [value]: the template with its
    placeholder replaced. *)
Definition stored_value (s : Secret) (value : list byte) : list byte :=
  Go.ReplaceAll (Go.bytes_of (template_of s)) (Go.bytes_of templateKey) value.

(** [instance.Data[key] = value] on a resource. *)
Definition with_field (s : Secret) (key : string) (value : list byte) : option Secret :=
  match assign (Data s) key value with
  | Some data => Some {| Annotations := Annotations s; Data := data |}
  | None => None
  end.

(** The state in which the loop of a pass over [s], started with the entropy
    [r0], takes up the field [key] that follows the fields [pre]: the list is
    duplicate-free, the length parses, the loop went through [pre] without
    error, and [key] is not left alone. *)
Definition pass_reaches (s : Secret) (r0 : Rand) (pre : list string) (key : string)
    (wi : GenState) : Prop :=
  exists post ci,
    fields_to_generate s = (pre ++ key :: post)%list
    /\ ensureUniqueness (fields_to_generate s) = None
    /\ (parsed_length s).2 = None
    /\ generate_keys (regeneration_set s) (parsed_length s).1.1 (parsed_length s).1.2
         0 pre {| inst := request_consumed s; rng := r0 |} = Done (ci, None) wi
    /\ keeps_field (regeneration_set s) s key = false.

(** [v] is the value a pass over [s] generates for [key]: the template filled
    with what [GenerateRandomString] returns when the loop takes up [key]. *)
Definition generated_in_pass (s : Secret) (r0 : Rand) (key : string) (v : list byte)
  : Prop :=
  exists pre wi value r',
    pass_reaches s r0 pre key wi
    /\ GenerateRandomString (parsed_length s).1.1 (encoding_of s) (parsed_length s).1.2
         (rng wi) = Done (value, None) r'
    /\ v = stored_value s value.

(** The field holds a non-empty value. *)
Definition holds_value (s : Secret) (key : string) : Prop :=
  exists v, index (Data s) key = Some v /\ v <> [].

End Directive.

(** The encodings that produce text, with the unset one, which is base64. *)
Definition text_encodings : list string := ["base64"; "base64url"; "base32"; "hex"; ""].

(** ** A concrete environment

    Instances of the interfaces above, on which the definitions run: the
    constants with the values the package gives them, an entropy source that
    hands out the bytes of a tape and fails once the tape is too short, a
    length parser for decimal numbers with an optional byte suffix, and a
    cluster holding at most one Secret. *)

Module Concrete.

#[export] Program Instance constants : Constants := {|
  AnnotationSecretType := "secret-generator.v1.mittwald.de/type";
  AnnotationSecretAutoGenerate := "secret-generator.v1.mittwald.de/autogenerate";
  AnnotationSecretLength := "secret-generator.v1.mittwald.de/length";
  AnnotationSecretEncoding := "secret-generator.v1.mittwald.de/encoding";
  AnnotationSecretTemplate := "secret-generator.v1.mittwald.de/template";
  AnnotationSecretRegenerate := "secret-generator.v1.mittwald.de/regenerate";
  AnnotationSecretSecure := "secret-generator.v1.mittwald.de/secure";
  AnnotationSecretAutoGeneratedAt := "secret-generator.v1.mittwald.de/autogenerate-generated-at";
  TypeSSHKeypair := "ssh-keypair";
  TypeBasicAuth := "basic-auth"
|}.
Next Obligation. apply (bool_decide_unpack _). vm_compute. reflexivity. Qed.
Next Obligation. apply (bool_decide_unpack _). vm_compute. reflexivity. Qed.

Definition config (regenerateInsecure : bool) : Config := {|
  RegenerateInsecure := regenerateInsecure;
  DefaultLength := 40;
  DefaultEncoding := "base64";
  SSHKeyLength := 2048
|}.

Definition tape_Read (n : nat) (tape : list byte)
  : (list byte * option error) * list byte :=
  if (n <=? length tape)%nat then (take n tape, None, drop n tape)
  else (replicate n "000"%byte, Some (errorString "entropy source exhausted"), tape).

#[export] Program Instance tape : Entropy := {|
  Rand := list byte;
  rand_Read := tape_Read
|}.
Next Obligation.
  intros n tape. unfold tape_Read.
  destruct (Nat.leb_spec n (length tape)); simpl.
  - rewrite length_take. lia.
  - apply length_replicate.
Qed.

(** A text without its final ["b"], and whether it had one. *)
Fixpoint trim_byte_suffix (s : string) : string * bool :=
  match s with
  | EmptyString => (EmptyString, false)
  | String c EmptyString =>
      if Ascii.eqb c "b"%char then (EmptyString, true) else (s, false)
  | String c rest =>
      let '(kept, found) := trim_byte_suffix rest in (String c kept, found)
  end.

Definition parse_length (fallback : Z) (text : string) : (Z * bool) * option error :=
  match text with
  | EmptyString => (fallback, false, None)
  | _ =>
      let '(digits, isByteLength) := trim_byte_suffix text in
      match NilZero.int_of_string digits with
      | Some i => (Z.of_int i, isByteLength, None)
      | None => (0, false, Some (errorString "invalid length"))
      end
  end.

#[export] Instance parser : LengthParser := {| ParseByteLength := parse_length |}.

Definition single_Get (name : string) (cluster : option Secret)
  : (Secret * option error) * option Secret :=
  match cluster with
  | Some secret => (secret, None, cluster)
  | None => ({| Annotations := None; Data := None |},
             Some (StatusError true "not found"), cluster)
  end.

Definition single_Update (desired : Secret) (cluster : option Secret)
  : option error * option Secret := (None, Some desired).

#[export] Instance cluster : Client := {|
  Api := option Secret;
  client_Get := single_Get;
  client_Update := single_Update
|}.

Definition idle : Generator := {| generateData := ret (Result_zero, None) |}.

#[export] Instance siblings : Siblings := {|
  SSHKeypairGenerator := idle;
  BasicAuthGenerator := idle
|}.

Definition annotations (entries : list (string * string)) : option (gmap string string) :=
  Some (list_to_map entries).

Definition data (entries : list (string * string)) : option (gmap string (list byte)) :=
  Some (list_to_map (map (fun e => (e.1, Go.bytes_of e.2)) entries)).

(** Sixty-four bytes of entropy: 0, 1, ..., 63. *)
Definition tape64 : @Rand tape :=
  [Byte.x00; Byte.x01; Byte.x02; Byte.x03; Byte.x04; Byte.x05; Byte.x06; Byte.x07;
   Byte.x08; Byte.x09; Byte.x0a; Byte.x0b; Byte.x0c; Byte.x0d; Byte.x0e; Byte.x0f;
   Byte.x10; Byte.x11; Byte.x12; Byte.x13; Byte.x14; Byte.x15; Byte.x16; Byte.x17;
   Byte.x18; Byte.x19; Byte.x1a; Byte.x1b; Byte.x1c; Byte.x1d; Byte.x1e; Byte.x1f;
   Byte.x20; Byte.x21; Byte.x22; Byte.x23; Byte.x24; Byte.x25; Byte.x26; Byte.x27;
   Byte.x28; Byte.x29; Byte.x2a; Byte.x2b; Byte.x2c; Byte.x2d; Byte.x2e; Byte.x2f;
   Byte.x30; Byte.x31; Byte.x32; Byte.x33; Byte.x34; Byte.x35; Byte.x36; Byte.x37;
   Byte.x38; Byte.x39; Byte.x3a; Byte.x3b; Byte.x3c; Byte.x3d; Byte.x3e; Byte.x3f].

(** The insecure-regeneration policy is off. *)
#[export] Instance policy_off : Config := config false.

Definition secret (a d : list (string * string)) : Secret :=
  {| Annotations := annotations a; Data := data d |}.

(** A generator state and a cluster around a Secret. *)
Definition gen (s : Secret) (r : @Rand tape) : GenState := {| inst := s; rng := r |}.

Definition world (s : Secret) (r : @Rand tape) : ReconState :=
  {| api := Some s; entropy := r; updated := [] |}.

Definition request : string := "default/demo".
Definition now : string := "2026-01-01T00:00:00Z".

(** The base64 text of the bytes 0, 1, ..., 39, cut to forty characters. *)
Definition first40 : string := "AAECAwQFBgcICQoLDA0ODxAREhMUFRYXGBkaGxwd".

(** Autogenerate ["x,y"], with [x] already set. *)
Definition xy : Secret := secret [(AnnotationSecretAutoGenerate, "x,y")] [("x", "v")].
Definition xy_after : Secret :=
  secret [(AnnotationSecretAutoGenerate, "x,y")] [("x", "v"); ("y", first40)].

(** Autogenerate ["x,y,z"], with [x] already set: the tape serves [y] and is
    too short for [z]. *)
Definition xyz : Secret := secret [(AnnotationSecretAutoGenerate, "x,y,z")] [("x", "v")].
Definition xyz_after : Secret :=
  secret [(AnnotationSecretAutoGenerate, "x,y,z")] [("x", "v"); ("y", first40)].

(** A field named twice. *)
Definition twice : Secret := secret [(AnnotationSecretAutoGenerate, "a,a")] [("a", "v")].

(** A regeneration request for all fields, of eight characters each. *)
Definition renew : Secret :=
  secret [(AnnotationSecretAutoGenerate, "x,y"); (AnnotationSecretRegenerate, "yes");
          (AnnotationSecretLength, "8")] [("x", "v")].
Definition renew_after : Secret :=
  secret [(AnnotationSecretAutoGenerate, "x,y"); (AnnotationSecretLength, "8");
          (AnnotationSecretSecure, "yes")] [("x", "AAECAwQF"); ("y", "CAkKCwwN")].

(** A String resource whose only field is set. *)
Definition settled : Secret :=
  secret [(AnnotationSecretType, "string"); (AnnotationSecretAutoGenerate, "x")]
         [("x", "v")].

(** No annotation at all; with and without a value under the empty name. *)
Definition bare : Secret := secret [] [].
Definition bare_after : Secret :=
  secret [(AnnotationSecretSecure, "yes")] [("", first40)].
Definition bare_set : Secret := secret [] [("", "v")].

(** Annotations that do not concern the controller. *)
Definition foreign : Secret := secret [("app", "demo")] [("password", "hunter2")].

(** An invalid type and no autogenerate annotation. *)
Definition mistyped : Secret :=
  {| Annotations := annotations [(AnnotationSecretType, "foo")]; Data := None |}.
Definition mistyped_persisted : Secret :=
  secret [(AnnotationSecretType, "string"); (AnnotationSecretSecure, "yes");
          (AnnotationSecretAutoGeneratedAt, now)] [("", first40)].

(** No type, and an autogenerate annotation whose field is set. *)
Definition untyped : Secret := secret [(AnnotationSecretAutoGenerate, "x")] [("x", "v")].
Definition untyped_persisted : Secret :=
  secret [(AnnotationSecretAutoGenerate, "x"); (AnnotationSecretType, "string");
          (AnnotationSecretAutoGeneratedAt, now)] [("x", "v")].

(** No type, and an autogenerate annotation that names a field twice. *)
Definition untyped_twice : Secret :=
  secret [(AnnotationSecretAutoGenerate, "a,a")] [].

End Concrete.

(** ** Further concrete resources *)

Module Cases.
Import Concrete.

(** The insecure-regeneration policy is on. *)
Definition policy_on : Config := config true.

(** No secure marker, a request naming [x], eight characters per field. *)
Definition forced : Secret :=
  secret [(AnnotationSecretAutoGenerate, "x,y"); (AnnotationSecretRegenerate, "x");
          (AnnotationSecretLength, "8")] [("x", "v")].
Definition forced_after : Secret :=
  secret [(AnnotationSecretAutoGenerate, "x,y"); (AnnotationSecretRegenerate, "x");
          (AnnotationSecretLength, "8"); (AnnotationSecretSecure, "yes")]
         [("x", "AAECAwQF"); ("y", "CAkKCwwN")].

(** A request naming [y] and a field that is not declared. *)
Definition partly : Secret :=
  secret [(AnnotationSecretAutoGenerate, "x,y"); (AnnotationSecretRegenerate, "y,zz");
          (AnnotationSecretLength, "8")] [("x", "v"); ("y", "old")].
Definition partly_after : Secret :=
  secret [(AnnotationSecretAutoGenerate, "x,y"); (AnnotationSecretLength, "8")]
         [("x", "v"); ("y", "AAECAwQF")].


(** A String resource whose field is still to be generated. *)
Definition typed : Secret :=
  secret [(AnnotationSecretType, "string"); (AnnotationSecretAutoGenerate, "x");
          (AnnotationSecretLength, "8")] [].
Definition typed_after : Secret :=
  secret [(AnnotationSecretType, "string"); (AnnotationSecretAutoGenerate, "x");
          (AnnotationSecretLength, "8"); (AnnotationSecretSecure, "yes")]
         [("x", "AAECAwQF")].
Definition typed_persisted : Secret :=
  secret [(AnnotationSecretType, "string"); (AnnotationSecretAutoGenerate, "x");
          (AnnotationSecretLength, "8"); (AnnotationSecretSecure, "yes");
          (AnnotationSecretAutoGeneratedAt, now)]
         [("x", "AAECAwQF")].

(** An empty cluster. *)
Definition nowhere (r : @Rand tape) : ReconState :=
  {| api := None; entropy := r; updated := [] |}.

(** An entropy source with nothing left to deliver. *)
Definition dry : @Rand tape := [].

End Cases.

(** ** Vocabulary of the further properties *)

(** The length of the text an encoding makes of [n] bytes. *)
Definition encoded_length (encoding : string) (n : Z) : Z :=
  if String.eqb encoding "base64url" then 4 * ((n + 2) / 3)
  else if String.eqb encoding "base32" then 8 * ((n + 4) / 5)
  else if String.eqb encoding "hex" then 2 * n
  else 4 * ((n + 2) / 3).

(** The characters an encoding may produce. *)
Definition encoding_alphabet (encoding : string) : list byte :=
  if String.eqb encoding "base64url" then Go.StdPadding :: Go.encodeURL
  else if String.eqb encoding "base32" then Go.StdPadding :: Go.encodeStd32
  else if String.eqb encoding "hex" then Go.hextable
  else Go.StdPadding :: Go.encodeStd.

(** The first byte of the placeholder. *)
Definition dollar : byte := "$"%byte.

(** * Properties *)

(** ** The library functions on known values *)

Example hex_foobar :
  Go.hex_EncodeToString (Go.bytes_of "foobar") = Go.bytes_of "666f6f626172".
Proof. reflexivity. Qed.

Example base64_foobar :
  map (fun s => Go.base64_EncodeToString Go.encodeStd (Go.bytes_of s))
      [""; "f"; "fo"; "foo"; "foob"; "fooba"; "foobar"]
  = map Go.bytes_of [""; "Zg=="; "Zm8="; "Zm9v"; "Zm9vYg=="; "Zm9vYmE="; "Zm9vYmFy"].
Proof. reflexivity. Qed.

Example base64url_differs :
  Go.base64_EncodeToString Go.encodeStd [Byte.xfb; Byte.xff] = Go.bytes_of "+/8="
  /\ Go.base64_EncodeToString Go.encodeURL [Byte.xfb; Byte.xff] = Go.bytes_of "-_8=".
Proof. split; reflexivity. Qed.

Example base32_foobar :
  map (fun s => Go.base32_EncodeToString (Go.bytes_of s))
      [""; "f"; "fo"; "foo"; "foob"; "fooba"; "foobar"]
  = map Go.bytes_of [""; "MY======"; "MZXQ===="; "MZXW6==="; "MZXW6YQ=";
                     "MZXW6YTB"; "MZXW6YTBOI======"].
Proof. reflexivity. Qed.

Example Split_examples :
  map Go.Split_comma [""; "a"; "a,b"; "a,a"; ",a"; "a,"; "x,,y"]
  = [[""]; ["a"]; ["a"; "b"]; ["a"; "a"]; [""; "a"]; ["a"; ""]; ["x"; ""; "y"]].
Proof. reflexivity. Qed.

Example ReplaceAll_examples :
  Go.ReplaceAll (Go.bytes_of "prefix-${SECRET}-suffix") (Go.bytes_of "${SECRET}")
                (Go.bytes_of "XYZ") = Go.bytes_of "prefix-XYZ-suffix"
  /\ Go.ReplaceAll (Go.bytes_of "${SECRET}${SECRET}$") (Go.bytes_of "${SECRET}")
                   (Go.bytes_of "ab") = Go.bytes_of "abab$"
  /\ Go.ReplaceAll (Go.bytes_of "fixed") (Go.bytes_of "${SECRET}")
                   (Go.bytes_of "ab") = Go.bytes_of "fixed".
Proof. repeat split; reflexivity. Qed.

Example Itoa_examples : map Go.Itoa [0; 40; -7] = ["0"; "40"; "-7"].
Proof. reflexivity. Qed.

(** ** Lengths of the encodings *)

Lemma hex_EncodeToString_length (src : list byte) :
  (length src <= length (Go.hex_EncodeToString src))%nat.
Proof. induction src as [|v rest IH]; simpl; lia. Qed.

(** A list induction that goes down three elements at a time. *)
Lemma list_ind3 {A} (P : list A -> Prop) :
  P [] -> (forall a, P [a]) -> (forall a b, P [a; b]) ->
  (forall a b c rest, P rest -> P (a :: b :: c :: rest)) ->
  forall l, P l.
Proof.
  intros Hnil Hone Htwo Hstep l.
  assert (Hall : P l /\ (forall a, P (a :: l)) /\ (forall a b, P (a :: b :: l))).
  { induction l as [|x l (IH0 & IH1 & IH2)]; [by auto|].
    split; [apply IH1|]. split; [intros a; apply IH2|]. intros a b. by apply Hstep. }
  apply Hall.
Qed.

Lemma base64_EncodeToString_length (enc src : list byte) :
  (length src <= length (Go.base64_EncodeToString enc src))%nat.
Proof.
  induction src as [| | |a b c rest IH] using list_ind3; simpl in *; lia.
Qed.

(** The same, five elements at a time. *)
Lemma list_ind5 {A} (P : list A -> Prop) :
  P [] -> (forall a, P [a]) -> (forall a b, P [a; b]) ->
  (forall a b c, P [a; b; c]) -> (forall a b c d, P [a; b; c; d]) ->
  (forall a b c d e rest, P rest -> P (a :: b :: c :: d :: e :: rest)) ->
  forall l, P l.
Proof.
  intros H0 H1 H2 H3 H4 Hstep l.
  assert (Hall : P l /\ (forall a, P (a :: l)) /\ (forall a b, P (a :: b :: l))
                 /\ (forall a b c, P (a :: b :: c :: l))
                 /\ (forall a b c d, P (a :: b :: c :: d :: l))).
  { induction l as [|x l (IH0 & IH1 & IH2 & IH3 & IH4)]; [by auto|].
    split; [apply IH1|]. split; [intros a; apply IH2|].
    split; [intros a b; apply IH3|]. split; [intros a b c; apply IH4|].
    intros a b c d. by apply Hstep. }
  apply Hall.
Qed.

Lemma base32_EncodeToString_length (src : list byte) :
  (length src <= length (Go.base32_EncodeToString src))%nat.
Proof.
  induction src as [| | | | |a b c d e rest IH] using list_ind5; simpl in *; lia.
Qed.

Lemma encode_length (encoding : string) (b : list byte) :
  (length b <= length (encode encoding b))%nat.
Proof.
  unfold encode.
  repeat case_match;
    auto using hex_EncodeToString_length, base64_EncodeToString_length,
               base32_EncodeToString_length.
Qed.

Lemma slice_to_Some {A} (s : list A) (n : Z) :
  0 <= n <= Go.len s ->
  Go.slice_to s n = Some (take (Z.to_nat n) s) /\ Go.len (take (Z.to_nat n) s) = n.
Proof.
  intros Hn. unfold Go.slice_to, Go.len in *.
  rewrite (proj2 (Z.leb_le 0 n)), (proj2 (Z.leb_le n _)) by lia.
  split; [done|]. rewrite length_take. lia.
Qed.

(** ** The random value encoder *)

Section EncoderProperties.
Context `{Entropy}.

Lemma text_encoding_not_raw (encoding : string) :
  encoding ∈ text_encodings -> String.eqb encoding "raw" = false.
Proof.
  unfold text_encodings. intros Hin.
  repeat (apply elem_of_cons in Hin as [->|Hin]; [reflexivity|]).
  by apply elem_of_nil in Hin.
Qed.

(** What [GenerateRandomString] does for a length that is not negative. *)
Lemma GenerateRandomString_unfold (n : Z) (encoding : string) (lenBytes : bool)
    (r : Rand) :
  0 <= n ->
  GenerateRandomString n encoding lenBytes r =
    match (rand_Read (Z.to_nat n) r).1.2 with
    | Some e => Done ([], Some e) (rand_Read (Z.to_nat n) r).2
    | None =>
        if String.eqb encoding "raw"
        then Done ((rand_Read (Z.to_nat n) r).1.1, None) (rand_Read (Z.to_nat n) r).2
        else if lenBytes
        then Done (encode encoding (rand_Read (Z.to_nat n) r).1.1, None)
                  (rand_Read (Z.to_nat n) r).2
        else Done (take (Z.to_nat n) (encode encoding (rand_Read (Z.to_nat n) r).1.1),
                   None) (rand_Read (Z.to_nat n) r).2
    end.
Proof.
  intros Hn. unfold GenerateRandomString.
  rewrite (proj2 (Z.ltb_ge n 0)) by lia.
  pose proof (rand_Read_length (Z.to_nat n) r) as Hlen.
  destruct (rand_Read (Z.to_nat n) r) as [[b err] r']. simpl in *.
  destruct err as [e|]; [done|].
  destruct (String.eqb encoding "raw"); [done|].
  destruct lenBytes; [done|].
  pose proof (encode_length encoding b) as Henc.
  destruct (slice_to_Some (encode encoding b) n) as [-> _]; [|done].
  unfold Go.len. lia.
Qed.

(** C2.  For a length [n >= 0] and an encoding among base64, base64url,
    base32, hex and the unset one, [GenerateRandomString] without the
    byte-length flag returns whenever the entropy source delivers, and what it
    returns without error is the encoded text cut to exactly [n] characters. *)
Theorem GenerateRandomString_text_length (n : Z) (encoding : string) (r : Rand) :
  0 <= n ->
  encoding ∈ text_encodings ->
  ((rand_Read (Z.to_nat n) r).1.2 = None ->
   exists value r', GenerateRandomString n encoding false r = Done (value, None) r')
  /\ (forall value r',
        GenerateRandomString n encoding false r = Done (value, None) r' ->
        Go.len value = n
        /\ value = take (Z.to_nat n) (encode encoding (rand_Read (Z.to_nat n) r).1.1)).
Proof.
  intros Hn Henc.
  rewrite (GenerateRandomString_unfold n encoding false r Hn).
  rewrite (text_encoding_not_raw encoding Henc).
  pose proof (rand_Read_length (Z.to_nat n) r) as Hlen.
  pose proof (encode_length encoding (rand_Read (Z.to_nat n) r).1.1) as Hle.
  destruct ((rand_Read (Z.to_nat n) r).1.2) as [e|].
  - split; [done|]. intros value r' [=].
  - split; [eauto|]. intros value r' [= <- _]. split; [|done].
    unfold Go.len. rewrite length_take. lia.
Qed.

(** C8.  For a length [n >= 0], [GenerateRandomString] with the encoding
    ["raw"] returns whenever the entropy source delivers, and what it returns
    without error is the [n] bytes read from the source, as they are, whatever
    the byte-length flag. *)
Theorem GenerateRandomString_raw (n : Z) (lenBytes : bool) (r : Rand) :
  0 <= n ->
  ((rand_Read (Z.to_nat n) r).1.2 = None ->
   exists value r', GenerateRandomString n "raw" lenBytes r = Done (value, None) r')
  /\ (forall value r',
        GenerateRandomString n "raw" lenBytes r = Done (value, None) r' ->
        value = (rand_Read (Z.to_nat n) r).1.1 /\ Go.len value = n).
Proof.
  intros Hn.
  rewrite (GenerateRandomString_unfold n "raw" lenBytes r Hn).
  pose proof (rand_Read_length (Z.to_nat n) r) as Hlen.
  destruct ((rand_Read (Z.to_nat n) r).1.2) as [e|]; simpl.
  - split; [done|]. intros value r' [=].
  - split; [eauto|]. intros value r' [= <- _]. split; [done|].
    unfold Go.len. lia.
Qed.

End EncoderProperties.

(** ** Uniqueness of the field list *)

Lemma ensureUniqueness_from_None (set : gmap string bool) (a : list string) :
  (forall e v, set !! e = Some v -> v = true) ->
  ensureUniqueness_from set a = None <->
  NoDup a /\ (forall e, e ∈ a -> set !! e = None).
Proof.
  revert set. induction a as [|e rest IH]; intros set Hset; simpl.
  - split; [|done]. intros _. split; [constructor|].
    intros e He. by apply elem_of_nil in He.
  - destruct (set !! e) as [v|] eqn:Hlook; simpl.
    + rewrite (Hset e v Hlook). split; [done|].
      intros [_ Hfree]. specialize (Hfree e (list_elem_of_here _ _)). congruence.
    + rewrite IH.
      * split.
        -- intros [Hnd Hfree]. split.
           ++ constructor; [|done]. intros Hin.
              specialize (Hfree e Hin). by rewrite lookup_insert_eq in Hfree.
           ++ intros x Hx. apply elem_of_cons in Hx as [->|Hx]; [done|].
              specialize (Hfree x Hx).
              destruct (decide (e = x)) as [->|Hne]; [done|].
              by rewrite lookup_insert_ne in Hfree.
        -- intros [Hnd Hfree]. apply NoDup_cons in Hnd as [Hnotin Hnd].
           split; [done|]. intros x Hx.
           rewrite lookup_insert_ne; [|by intros ->].
           apply Hfree. by apply list_elem_of_further.
      * intros x v. destruct (decide (e = x)) as [->|Hne].
        -- rewrite lookup_insert_eq. congruence.
        -- rewrite lookup_insert_ne by done. apply Hset.
Qed.

Lemma ensureUniqueness_None (a : list string) :
  ensureUniqueness a = None <-> NoDup a.
Proof.
  unfold ensureUniqueness. rewrite ensureUniqueness_from_None.
  - split; [by intros [? _]|]. intros Hnd. split; [done|].
    intros e _. apply lookup_empty.
  - intros e v. by rewrite lookup_empty.
Qed.

Lemma contains_true (s : list string) (e : string) :
  contains s e = true <-> e ∈ s.
Proof.
  induction s as [|a rest IH]; simpl.
  - split; [done|]. intros He. by apply elem_of_nil in He.
  - destruct (String.eqb_spec a e) as [->|Hne].
    + split; [|done]. intros _. apply list_elem_of_here.
    + rewrite IH. split; [apply list_elem_of_further|].
      intros He. apply elem_of_cons in He as [->|He]; [done|done].
Qed.

Lemma Split_comma_not_nil (s : string) : Go.Split_comma s <> [].
Proof.
  induction s as [|c rest IH]; simpl; [done|].
  destruct (Ascii.eqb c Go.comma); [done|].
  by destruct (Go.Split_comma rest).
Qed.

(** ** The String generator, step by step *)

Section GeneratorProperties.
Context `{Constants} `{Config} `{Entropy} `{LengthParser}.

Lemma with_field_Some (s s' : Secret) (key : string) (value : list byte) :
  with_field s key value = Some s' ->
  Annotations s' = Annotations s
  /\ index (Data s') key = Some value
  /\ (forall k, k <> key -> index (Data s') k = index (Data s) k).
Proof.
  unfold with_field, assign. destruct s as [ann [d|]]; simpl; [|done].
  intros [= <-]. simpl. split; [done|]. split.
  - apply lookup_insert_eq.
  - intros k Hk. by apply lookup_insert_ne.
Qed.


(** One call of [generateRandomSecret]. *)
Lemma generateRandomSecret_run (conf : secretConfig) (w : GenState) :
  generateRandomSecret conf w =
    match GenerateRandomString (length_ conf) (encoding_of (inst w))
                               (isByteLength conf) (rng w) with
    | Panic => Panic
    | Done (_, Some e) r' => Done (Some e) {| inst := inst w; rng := r' |}
    | Done (value, None) r' =>
        match with_field (inst w) (key conf) (stored_value (inst w) value) with
        | Some s' => Done None {| inst := s'; rng := r' |}
        | None => Panic
        end
    end.
Proof.
  unfold generateRandomSecret, bind, get_instance, with_rng, ret, encoding_of,
    stored_value, template_of, getEncodingFromAnnotation, getTemplateFromAnnotation,
    with_field, set_Data.
  destruct (index (Annotations (inst w)) AnnotationSecretEncoding);
    destruct (index (Annotations (inst w)) AnnotationSecretTemplate); simpl;
    destruct (GenerateRandomString _ _ _ _) as [[value [e|]] r'|]; simpl; try done;
    destruct (assign _ _ _); done.
Qed.

(** One turn of the loop. *)
Lemma generate_keys_cons (regenKeys : list string) (L : Z) (B : bool) (c : Z)
    (key : string) (rest : list string) (w : GenState) :
  generate_keys regenKeys L B c (key :: rest) w =
    if keeps_field regenKeys (inst w) key
    then generate_keys regenKeys L B c rest w
    else
      match generateRandomSecret {| key := key; length_ := L; isByteLength := B |} w with
      | Panic => Panic
      | Done (Some e) w' => Done (c + 1, Some e) w'
      | Done None w' => generate_keys regenKeys L B (c + 1) rest w'
      end.
Proof.
  simpl. unfold bind at 1. unfold get_instance at 1. unfold keeps_field.
  destruct (_ && _); [done|]. unfold bind.
  destruct (generateRandomSecret _ w) as [[e|] w'|]; done.
Qed.

(** The loop over a list in two parts. *)
Lemma generate_keys_app (regenKeys : list string) (L : Z) (B : bool) (c : Z)
    (l1 l2 : list string) (w : GenState) :
  generate_keys regenKeys L B c (l1 ++ l2) w =
    match generate_keys regenKeys L B c l1 w with
    | Done (c', None) w' => generate_keys regenKeys L B c' l2 w'
    | Done (c', Some e) w' => Done (c', Some e) w'
    | Panic => Panic
    end.
Proof.
  revert c w. induction l1 as [|k l1 IH]; intros c w; [done|].
  rewrite <- app_comm_cons, !generate_keys_cons.
  destruct (keeps_field regenKeys (inst w) k); [apply IH|].
  destruct (generateRandomSecret _ w) as [[e|] w'|]; [done|apply IH|done].
Qed.

(** What a call of [generateRandomSecret] that returns leaves behind. *)
Lemma generateRandomSecret_Done (conf : secretConfig) (w w' : GenState)
    (err : option error) :
  generateRandomSecret conf w = Done err w' ->
  Annotations (inst w') = Annotations (inst w)
  /\ (forall k, k <> key conf -> index (Data (inst w')) k = index (Data (inst w)) k)
  /\ (is_Some (Data (inst w)) -> is_Some (Data (inst w'))).
Proof.
  rewrite generateRandomSecret_run.
  destruct (GenerateRandomString _ _ _ _) as [[value [e|]] r'|]; [| |done].
  - intros [= <- <-]. done.
  - destruct (with_field _ _ _) as [s'|] eqn:Hs'; [|done].
    intros [= <- <-]. simpl.
    destruct (with_field_Some _ _ _ _ Hs') as (Ha & Hk & Hother).
    split; [done|]. split; [done|]. intros _.
    unfold with_field, assign in Hs'. destruct (Data (inst w)); [|done].
    injection Hs' as <-. simpl. eauto.
Qed.

Lemma keeps_field_ext (regenKeys : list string) (s s' : Secret) (k : string) :
  index (Data s') k = index (Data s) k ->
  keeps_field regenKeys s' k = keeps_field regenKeys s k.
Proof. unfold keeps_field. by intros ->. Qed.

(** The loop never touches the annotations, nor a field outside its list,
    and counts at most one per field. *)
Lemma generate_keys_frame (regenKeys : list string) (L : Z) (B : bool)
    (keys : list string) (c c' : Z) (err : option error) (w w' : GenState) :
  generate_keys regenKeys L B c keys w = Done (c', err) w' ->
  Annotations (inst w') = Annotations (inst w)
  /\ (forall k, k ∉ keys -> index (Data (inst w')) k = index (Data (inst w)) k)
  /\ c <= c' <= c + Go.len keys.
Proof.
  revert c w. induction keys as [|key rest IH]; intros c w.
  - intros [= <- <- <-]. unfold Go.len. simpl. split; [done|]. split; [done|lia].
  - rewrite generate_keys_cons.
    assert (Hlen : Go.len (key :: rest) = Go.len rest + 1)
      by (unfold Go.len; simpl; lia).
    destruct (keeps_field regenKeys (inst w) key).
    + intros Hrun. destruct (IH _ _ Hrun) as (Ha & Hd & Hc).
      split; [done|]. split; [|lia].
      intros k Hk. apply Hd. intros Hin. apply Hk. by apply list_elem_of_further.
    + destruct (generateRandomSecret _ w) as [[e|] w1|] eqn:Hgen; [| |done].
      * intros [= <- <- <-].
        destruct (generateRandomSecret_Done _ _ _ _ Hgen) as (Ha & Hd & _).
        split; [done|]. split; [|unfold Go.len in *; lia].
        intros k Hk. apply Hd. simpl. intros ->. apply Hk, list_elem_of_here.
      * intros Hrun. destruct (IH _ _ Hrun) as (Ha & Hd & Hc).
        destruct (generateRandomSecret_Done _ _ _ _ Hgen) as (Ha1 & Hd1 & _).
        split; [congruence|]. split; [|lia].
        intros k Hk. rewrite Hd.
        -- apply Hd1. simpl. intros ->. apply Hk, list_elem_of_here.
        -- intros Hin. apply Hk. by apply list_elem_of_further.
Qed.

(** A field the loop would leave alone at the start is left alone to the
    end, however the loop ends. *)
Lemma generate_keys_kept (regenKeys : list string) (L : Z) (B : bool)
    (keys : list string) (c c' : Z) (err : option error) (w w' : GenState)
    (k : string) :
  generate_keys regenKeys L B c keys w = Done (c', err) w' ->
  keeps_field regenKeys (inst w) k = true ->
  index (Data (inst w')) k = index (Data (inst w)) k.
Proof.
  revert c w. induction keys as [|key rest IH]; intros c w.
  - by intros [= <- <- <-].
  - rewrite generate_keys_cons. intros Hrun Hkept.
    destruct (keeps_field regenKeys (inst w) key) eqn:Hkey; [by eapply IH|].
    assert (Hne : k <> key) by (intros ->; congruence).
    destruct (generateRandomSecret _ w) as [[e|] w1|] eqn:Hgen; [| |done].
    + injection Hrun as <- <- <-.
      destruct (generateRandomSecret_Done _ _ _ _ Hgen) as (_ & Hd & _).
      by apply Hd.
    + destruct (generateRandomSecret_Done _ _ _ _ Hgen) as (_ & Hd & _).
      rewrite (IH _ _ Hrun).
      * by apply Hd.
      * rewrite <- Hkept. apply keeps_field_ext. by apply Hd.
Qed.

(** Where every field is left alone the loop changes nothing. *)
Lemma generate_keys_all_kept (regenKeys : list string) (L : Z) (B : bool)
    (keys : list string) (c : Z) (w : GenState) :
  (forall k, k ∈ keys -> keeps_field regenKeys (inst w) k = true) ->
  generate_keys regenKeys L B c keys w = Done (c, None) w.
Proof.
  induction keys as [|key rest IH]; intros Hall; [done|].
  rewrite generate_keys_cons, (Hall key (list_elem_of_here _ _)).
  apply IH. intros k Hk. apply Hall. by apply list_elem_of_further.
Qed.

(** Where no field is left alone a loop that ends well has counted them all. *)
Lemma generate_keys_count_all (regenKeys : list string) (L : Z) (B : bool)
    (keys : list string) (c c' : Z) (w w' : GenState) :
  (forall k, k ∈ keys -> contains regenKeys k = true) ->
  generate_keys regenKeys L B c keys w = Done (c', None) w' ->
  c' = c + Go.len keys.
Proof.
  revert c w. induction keys as [|key rest IH]; intros c w Hall.
  - intros [= <- _]. unfold Go.len. simpl. lia.
  - rewrite generate_keys_cons. unfold keeps_field at 1.
    rewrite (Hall key (list_elem_of_here _ _)), andb_false_r.
    destruct (generateRandomSecret _ w) as [[e|] w1|]; [done| |done].
    intros Hrun. apply IH in Hrun.
    + unfold Go.len in *. simpl. lia.
    + intros k Hk. apply Hall. by apply list_elem_of_further.
Qed.

(** The field at a given place of a duplicate-free list, after a loop that
    ends well: either it was left alone, or the loop came to it without
    error and stored the value generated there. *)
Lemma generate_keys_field (regenKeys : list string) (L : Z) (B : bool)
    (pre post : list string) (key : string) (c c' : Z) (w w' : GenState) :
  NoDup (pre ++ key :: post) ->
  generate_keys regenKeys L B c (pre ++ key :: post) w = Done (c', None) w' ->
  if keeps_field regenKeys (inst w) key
  then index (Data (inst w')) key = index (Data (inst w)) key
  else exists ci wi value r',
      generate_keys regenKeys L B c pre w = Done (ci, None) wi
      /\ GenerateRandomString L (encoding_of (inst w)) B (rng wi) = Done (value, None) r'
      /\ index (Data (inst w')) key = Some (stored_value (inst w) value).
Proof.
  intros Hnd Hrun.
  destruct (keeps_field regenKeys (inst w) key) eqn:Hkept;
    [by eapply generate_keys_kept|].
  apply NoDup_app in Hnd as (_ & Hpre & Hpost).
  apply NoDup_cons in Hpost as [Hpost _].
  rewrite generate_keys_app in Hrun.
  destruct (generate_keys regenKeys L B c pre w) as [[ci [e|]] wi|] eqn:Hrun1;
    [done| |done].
  destruct (generate_keys_frame _ _ _ _ _ _ _ _ _ Hrun1) as (Ha1 & Hd1 & _).
  assert (Hkey : index (Data (inst wi)) key = index (Data (inst w)) key).
  { apply Hd1. intros Hin. by apply (Hpre key Hin), list_elem_of_here. }
  rewrite generate_keys_cons, (keeps_field_ext _ _ _ _ Hkey), Hkept in Hrun.
  rewrite generateRandomSecret_run in Hrun. simpl in Hrun.
  assert (Henc : encoding_of (inst wi) = encoding_of (inst w))
    by (unfold encoding_of; by rewrite Ha1).
  assert (Hsto : forall v, stored_value (inst wi) v = stored_value (inst w) v)
    by (intros v; unfold stored_value, template_of; by rewrite Ha1).
  rewrite Henc in Hrun.
  destruct (GenerateRandomString L (encoding_of (inst w)) B (rng wi))
    as [[value [e|]] r'|] eqn:Hgen; [done| |done].
  destruct (with_field _ _ _) as [s'|] eqn:Hs'; [|done].
  destruct (with_field_Some _ _ _ _ Hs') as (_ & Hk & _).
  destruct (generate_keys_frame _ _ _ _ _ _ _ _ _ Hrun) as (_ & Hd2 & _).
  exists ci, wi, value, r'. split; [done|]. split; [done|].
  rewrite (Hd2 key Hpost). simpl. by rewrite Hk, Hsto.
Qed.

End GeneratorProperties.

(** ** A pass of the String generator *)

Section PassProperties.
Context `{Constants} `{Config} `{Entropy} `{LengthParser}.

(** The inequalities between annotation keys that the proofs use. *)
Lemma annotation_keys_ne :
  AnnotationSecretType <> AnnotationSecretRegenerate
  /\ AnnotationSecretType <> AnnotationSecretSecure
  /\ AnnotationSecretType <> AnnotationSecretAutoGeneratedAt
  /\ AnnotationSecretAutoGenerate <> AnnotationSecretRegenerate
  /\ AnnotationSecretLength <> AnnotationSecretRegenerate
  /\ AnnotationSecretEncoding <> AnnotationSecretRegenerate
  /\ AnnotationSecretTemplate <> AnnotationSecretRegenerate
  /\ AnnotationSecretRegenerate <> AnnotationSecretSecure
  /\ AnnotationSecretAutoGenerate <> AnnotationSecretType
  /\ AnnotationSecretAutoGenerate <> AnnotationSecretSecure.
Proof.
  pose proof annotation_keys_distinct as Hd.
  repeat (apply NoDup_cons in Hd as [? Hd]).
  repeat split; intros Heq; set_solver.
Qed.

Lemma index_delete_key_ne (m : option (gmap string string)) (k k' : string) :
  k <> k' -> index (delete_key m k) k' = index m k'.
Proof. intros Hne. destruct m as [m|]; [|done]. simpl. by apply lookup_delete_ne. Qed.

Lemma index_delete_key_eq (m : option (gmap string string)) (k : string) :
  index (delete_key m k) k = None.
Proof. destruct m as [m|]; [|done]. simpl. apply lookup_delete_eq. Qed.

(** Consuming the regeneration request leaves every other annotation, and
    the data, as they were. *)
Lemma request_consumed_other (s : Secret) (k : string) :
  k <> AnnotationSecretRegenerate ->
  index (Annotations (request_consumed s)) k = index (Annotations s) k.
Proof.
  intros Hne. unfold request_consumed.
  destruct (insecure_forced s); [done|].
  destruct (index (Annotations s) AnnotationSecretRegenerate); [|done].
  simpl. by apply index_delete_key_ne.
Qed.

Lemma request_consumed_Data (s : Secret) : Data (request_consumed s) = Data s.
Proof.
  unfold request_consumed. destruct (insecure_forced s); [done|].
  by destruct (index (Annotations s) AnnotationSecretRegenerate).
Qed.

Lemma request_consumed_allocated (s : Secret) :
  is_Some (Annotations s) -> is_Some (Annotations (request_consumed s)).
Proof.
  unfold request_consumed. intros [m Hm]. destruct (insecure_forced s); [eauto|].
  destruct (index (Annotations s) AnnotationSecretRegenerate); [|eauto].
  simpl. rewrite Hm. simpl. eauto.
Qed.

Lemma request_consumed_settings (s : Secret) :
  parsed_length (request_consumed s) = parsed_length s
  /\ encoding_of (request_consumed s) = encoding_of s
  /\ (forall v, stored_value (request_consumed s) v = stored_value s v)
  /\ (forall regenKeys k,
        keeps_field regenKeys (request_consumed s) k = keeps_field regenKeys s k).
Proof.
  destruct annotation_keys_ne as (_ & _ & _ & _ & Hl & He & Ht & _).
  unfold parsed_length, length_text, encoding_of, stored_value, template_of,
    GetLengthFromAnnotation, getEncodingFromAnnotation, getTemplateFromAnnotation,
    keeps_field.
  rewrite !request_consumed_other, request_consumed_Data by done. done.
Qed.

(** The first [if] of [regenerateKeysWhereRequired]. *)
Lemma regeneration_keys_run (w : GenState) :
  regeneration_keys (fields_to_generate (inst w)) w =
    Done (regeneration_set (inst w))
         {| inst := request_consumed (inst w); rng := rng w |}.
Proof.
  unfold regeneration_keys, regeneration_set, request_consumed, insecure_forced,
    bind, get_instance, ret, delete_Annotation.
  destruct w as [s r]. simpl.
  destruct (negb _ && RegenerateInsecure); [done|].
  destruct (index (Annotations s) AnnotationSecretRegenerate) as [regenerate|];
    [|done].
  simpl. by destruct (String.eqb regenerate "yes").
Qed.

(** The whole of [generateData], on the loop. *)
Lemma generateData_run (w : GenState) :
  StringGenerator_generateData w =
    match ensureUniqueness (fields_to_generate (inst w)) with
    | Some err => Done (Result_zero, Some err) w
    | None =>
        match parsed_length (request_consumed (inst w)) with
        | (_, _, Some e) =>
            Done (Result_zero, Some e)
                 {| inst := request_consumed (inst w); rng := rng w |}
        | (L, B, None) =>
            match generate_keys (regeneration_set (inst w)) L B 0
                    (fields_to_generate (inst w))
                    {| inst := request_consumed (inst w); rng := rng w |} with
            | Panic => Panic
            | Done (_, Some e) w2 =>
                Done ({| Requeue := false; RequeueAfter := Second * 30 |}, Some e) w2
            | Done (count, None) w2 =>
                if count =? Go.len (fields_to_generate (inst w))
                then
                  match assign (Annotations (inst w2)) AnnotationSecretSecure "yes" with
                  | Some annotations =>
                      Done (Result_zero, None)
                           {| inst := {| Annotations := annotations;
                                         Data := Data (inst w2) |};
                              rng := rng w2 |}
                  | None => Panic
                  end
                else Done (Result_zero, None) w2
            end
        end
    end.
Proof.
  unfold StringGenerator_generateData. unfold bind at 1. unfold get_instance at 1.
  fold (fields_to_generate (inst w)).
  destruct (ensureUniqueness (fields_to_generate (inst w))); [done|].
  unfold regenerateKeysWhereRequired. unfold bind at 1.
  rewrite regeneration_keys_run. unfold bind at 1. unfold get_instance at 1.
  cbn [inst]. unfold parsed_length, length_text.
  destruct (GetLengthFromAnnotation DefaultLength
              (Annotations (request_consumed (inst w)))) as [text [e|]] eqn:Htext.
  { unfold GetLengthFromAnnotation in Htext.
    destruct (index _ AnnotationSecretLength); by inversion Htext. }
  cbn [fst]. destruct (ParseByteLength DefaultLength text) as [[L B] [e|]]; [done|].
  unfold bind at 1.
  destruct (generate_keys _ L B 0 _ _) as [[count [e|]] w2|]; [done| |done].
  unfold bind, set_Annotation, ret.
  destruct (count =? _); [|done].
  by destruct (assign _ _ _).
Qed.

Lemma keeps_field_true (regenKeys : list string) (s : Secret) (key : string) :
  keeps_field regenKeys s key = true <-> holds_value s key /\ key ∉ regenKeys.
Proof.
  unfold keeps_field, holds_value, Go.len.
  rewrite andb_true_iff, !negb_true_iff, Z.eqb_neq, <- not_true_iff_false,
    contains_true.
  split.
  - intros [Hlen Hnot]. split; [|done].
    destruct (index (Data s) key) as [v|]; simpl in Hlen; [|done].
    exists v. split; [done|]. by intros ->.
  - intros [(v & -> & Hv) Hnot]. split; [|done]. simpl.
    destruct v; [done|]. simpl. lia.
Qed.

(** [generateData] leaves alone every annotation but the regeneration request
    and the secure marker. *)
Lemma generateData_annotations (w w' : GenState) (res : Result) (err : option error)
    (k : string) :
  StringGenerator_generateData w = Done (res, err) w' ->
  k <> AnnotationSecretRegenerate -> k <> AnnotationSecretSecure ->
  index (Annotations (inst w')) k = index (Annotations (inst w)) k.
Proof.
  rewrite generateData_run. intros Hrun Hk1 Hk2.
  destruct (ensureUniqueness _); [by injection Hrun as _ _ <-|].
  destruct (parsed_length _) as [[L B] [e|]].
  { injection Hrun as _ _ <-. by apply request_consumed_other. }
  destruct (generate_keys _ L B 0 _ _) as [[count [e|]] w2|] eqn:Hloop; [| |done].
  - injection Hrun as _ _ <-.
    destruct (generate_keys_frame _ _ _ _ _ _ _ _ _ Hloop) as (-> & _).
    by apply request_consumed_other.
  - destruct (generate_keys_frame _ _ _ _ _ _ _ _ _ Hloop) as (Ha & _).
    simpl in Ha. destruct (count =? _).
    + destruct (Annotations (inst w2)) as [m|] eqn:Hm; [|done]. simpl in Hrun.
      injection Hrun as _ _ <-. simpl. rewrite lookup_insert_ne by done.
      change (m !! k) with (index (Some m) k). rewrite Ha.
      by apply request_consumed_other.
    + injection Hrun as _ _ <-. rewrite Ha. by apply request_consumed_other.
Qed.

End PassProperties.

(** ** What a pass of the String generator guarantees *)

Section GeneratorClaims.
Context `{Constants} `{Config} `{Entropy} `{LengthParser}.

(** A field the pass leaves alone at the start holds its value at the end,
    however [generateData] returns. *)
Lemma generateData_kept (w w' : GenState) (res : Result) (err : option error)
    (key : string) :
  StringGenerator_generateData w = Done (res, err) w' ->
  keeps_field (regeneration_set (inst w)) (inst w) key = true ->
  index (Data (inst w')) key = index (Data (inst w)) key.
Proof.
  rewrite generateData_run. intros Hrun Hkept.
  destruct (ensureUniqueness _); [by injection Hrun as _ _ <-|].
  destruct (parsed_length _) as [[L B] [e|]].
  { injection Hrun as _ _ <-. simpl. by rewrite request_consumed_Data. }
  destruct (generate_keys _ L B 0 _ _) as [[count [e|]] w2|] eqn:Hloop; [| |done].
  all: assert (Hw2 : index (Data (inst w2)) key = index (Data (inst w)) key)
    by (rewrite (generate_keys_kept _ _ _ _ _ _ _ _ _ key Hloop); simpl;
        [by rewrite request_consumed_Data
        |by rewrite (proj2 (proj2 (proj2 (request_consumed_settings (inst w)))))]).
  - by injection Hrun as _ _ <-.
  - destruct (count =? _); [|by injection Hrun as _ _ <-].
    destruct (assign _ _ _); [|done]. by injection Hrun as _ _ <-.
Qed.

(** After [generateData] has returned without error, every field of the list
    was either left alone or holds the value generated for it in the pass. *)
Lemma generateData_success_fields (w w' : GenState) (res : Result) (key : string) :
  StringGenerator_generateData w = Done (res, None) w' ->
  key ∈ fields_to_generate (inst w) ->
  keeps_field (regeneration_set (inst w)) (inst w) key = false ->
  exists v, generated_in_pass (inst w) (rng w) key v
            /\ index (Data (inst w')) key = Some v.
Proof.
  rewrite generateData_run. intros Hrun Hin Hkept.
  destruct (ensureUniqueness _) eqn:Huniq; [done|].
  destruct (request_consumed_settings (inst w)) as (Hpl & Henc & Hsto & Hkeep).
  rewrite Hpl in Hrun.
  destruct (parsed_length (inst w)) as [[L B] [e|]] eqn:Hparsed; [done|].
  destruct (generate_keys _ L B 0 _ _) as [[count [e|]] w2|] eqn:Hloop;
    [done| |done].
  assert (Hdata : Data (inst w') = Data (inst w2)).
  { destruct (count =? _); [|by injection Hrun as _ <-].
    destruct (assign _ _ _); [|done]. by injection Hrun as _ <-. }
  apply list_elem_of_split in Hin as (pre & post & Hsplit).
  pose proof (proj1 (ensureUniqueness_None _) Huniq) as Hnd.
  rewrite Hsplit in Hloop, Hnd.
  pose proof (generate_keys_field _ _ _ _ _ _ _ _ _ _ Hnd Hloop) as Hfield.
  simpl in Hfield. rewrite Hkeep, Hkept, Henc in Hfield.
  destruct Hfield as (ci & wi & value & r' & Hpre & Hgen & Hval).
  exists (stored_value (inst w) value). split.
  - exists pre, wi, value, r'. rewrite Hparsed. simpl.
    split; [|by split]. exists post, ci. by rewrite Hparsed.
  - by rewrite Hdata, Hval, Hsto.
Qed.

(** C4.  When the autogenerate annotation, split on [","], holds a field
    name twice, [generateData] returns an error and leaves the resource (its
    data map and its annotation map) and the entropy source as they were. *)
Theorem generateData_duplicate_field (w : GenState) :
  ~ NoDup (fields_to_generate (inst w)) ->
  exists err, StringGenerator_generateData w = Done (Result_zero, Some err) w.
Proof.
  intros Hdup. rewrite generateData_run.
  destruct (ensureUniqueness (fields_to_generate (inst w))) as [err|] eqn:Huniq;
    [by exists err|].
  by apply ensureUniqueness_None in Huniq.
Qed.

(** C3, as amended.  For every declared field name: if the data map holds
    a non-empty value under it and it is not in the regeneration set of the
    pass, [generateData] returns with that value unchanged; and when
    [generateData] returns without error, every other declared field holds
    the value generated for it in the pass. *)
Theorem generateData_declared_field (w w' : GenState) (res : Result)
    (err : option error) (key : string) :
  StringGenerator_generateData w = Done (res, err) w' ->
  key ∈ fields_to_generate (inst w) ->
  (holds_value (inst w) key /\ key ∉ regeneration_set (inst w) ->
   index (Data (inst w')) key = index (Data (inst w)) key)
  /\ (~ (holds_value (inst w) key /\ key ∉ regeneration_set (inst w)) ->
      err = None ->
      exists v, generated_in_pass (inst w) (rng w) key v
                /\ index (Data (inst w')) key = Some v).
Proof.
  intros Hrun Hin. split.
  - intros Hkept. eapply generateData_kept; [done|]. by apply keeps_field_true.
  - intros Hnot ->. eapply generateData_success_fields; [done..|].
    apply not_true_iff_false. by rewrite keeps_field_true.
Qed.

(** C5.  On a resource whose regenerate-request annotation is ["yes"], and
    which carries the secure marker or is reconciled with the
    insecure-regeneration policy off, a pass of [generateData] that returns
    without error leaves every declared field with the value generated for it
    in the pass, whatever it held before, and the resource without the
    regenerate-request annotation. *)
Theorem generateData_regenerate_yes (w w' : GenState) (res : Result) :
  index (Annotations (inst w)) AnnotationSecretRegenerate = Some "yes" ->
  is_Some (index (Annotations (inst w)) AnnotationSecretSecure)
  \/ RegenerateInsecure = false ->
  StringGenerator_generateData w = Done (res, None) w' ->
  (forall key, key ∈ fields_to_generate (inst w) ->
     exists v, generated_in_pass (inst w) (rng w) key v
               /\ index (Data (inst w')) key = Some v)
  /\ index (Annotations (inst w')) AnnotationSecretRegenerate = None.
Proof.
  intros Hyes Hsecure Hrun.
  assert (Hforced : insecure_forced (inst w) = false).
  { unfold insecure_forced. destruct Hsecure as [Hs| ->]; [|apply andb_false_r].
    by rewrite (bool_decide_eq_true_2 _ Hs). }
  assert (Hset : regeneration_set (inst w) = fields_to_generate (inst w)).
  { unfold regeneration_set. by rewrite Hforced, Hyes. }
  split.
  - intros key Hin. eapply generateData_success_fields; [done..|].
    unfold keeps_field. rewrite Hset, (proj2 (contains_true _ _) Hin).
    apply andb_false_r.
  - assert (Hgone : index (Annotations (request_consumed (inst w)))
                      AnnotationSecretRegenerate = None).
    { unfold request_consumed. rewrite Hforced, Hyes. simpl.
      apply index_delete_key_eq. }
    destruct annotation_keys_ne as (_ & _ & _ & _ & _ & _ & _ & Hne & _).
    rewrite generateData_run in Hrun.
    destruct (ensureUniqueness _); [done|].
    destruct (parsed_length _) as [[L B] [e|]]; [done|].
    destruct (generate_keys _ L B 0 _ _) as [[count [e|]] w2|] eqn:Hloop;
      [done| |done].
    destruct (generate_keys_frame _ _ _ _ _ _ _ _ _ Hloop) as (Ha & _).
    simpl in Ha. destruct (count =? _).
    + destruct (Annotations (inst w2)) as [m|] eqn:Hm; [|done]. simpl in Hrun.
      injection Hrun as _ <-. simpl. rewrite lookup_insert_ne by done.
      change (m !! AnnotationSecretRegenerate)
        with (index (Some m) AnnotationSecretRegenerate).
      by rewrite Ha.
    + injection Hrun as _ <-. by rewrite Ha.
Qed.

End GeneratorClaims.

Section GeneratorClaims2.
Context `{Constants} `{Config} `{Entropy} `{LengthParser}.

(** On a resource whose declared fields all hold a value, without
    regeneration request and without forced regeneration, [generateData]
    returns and changes nothing, the entropy source included. *)
Lemma generateData_settled (w : GenState) :
  (forall key, key ∈ fields_to_generate (inst w) -> holds_value (inst w) key) ->
  index (Annotations (inst w)) AnnotationSecretRegenerate = None ->
  insecure_forced (inst w) = false ->
  exists res err, StringGenerator_generateData w = Done (res, err) w.
Proof.
  intros Hall Hreq Hforced.
  assert (Hset : regeneration_set (inst w) = [])
    by (unfold regeneration_set; by rewrite Hforced, Hreq).
  assert (Hsame : request_consumed (inst w) = inst w)
    by (unfold request_consumed; by rewrite Hforced, Hreq).
  rewrite generateData_run, Hsame, Hset.
  assert (Hw : {| inst := inst w; rng := rng w |} = w) by by destruct w.
  rewrite Hw.
  destruct (ensureUniqueness _); [eauto|].
  destruct (parsed_length (inst w)) as [[L B] [e|]]; [eauto|].
  rewrite generate_keys_all_kept.
  - destruct (0 =? Go.len (fields_to_generate (inst w))) eqn:Hlen; [|eauto].
    apply Z.eqb_eq in Hlen. unfold Go.len in Hlen.
    pose proof (Split_comma_not_nil
                  (default "" (index (Annotations (inst w))
                                     AnnotationSecretAutoGenerate))) as Hnil.
    fold (fields_to_generate (inst w)) in Hnil.
    destruct (fields_to_generate (inst w)); [done|]. simpl in Hlen. lia.
  - intros key Hin. apply keeps_field_true. split; [by apply Hall|].
    apply not_elem_of_nil.
Qed.

(** The fields the loop went through before it takes up [key] hold, where
    they were not left alone, the values generated for them. *)
Lemma pass_reaches_earlier (s : Secret) (r0 : Rand) (pre : list string)
    (key : string) (wi : GenState) (k : string) :
  pass_reaches s r0 pre key wi ->
  k ∈ pre ->
  keeps_field (regeneration_set s) s k = false ->
  exists v, generated_in_pass s r0 k v /\ index (Data (inst wi)) k = Some v.
Proof.
  intros (post & ci & Hsplit & Huniq & Hparsed & Hloop & _) Hin Hkept.
  destruct (request_consumed_settings s) as (_ & Henc & Hsto & Hkeep).
  apply list_elem_of_split in Hin as (p1 & p2 & ->).
  pose proof (proj1 (ensureUniqueness_None _) Huniq) as Hnd.
  rewrite Hsplit in Hnd. apply NoDup_app in Hnd as (Hnd & _).
  pose proof (generate_keys_field _ _ _ _ _ _ _ _ _ _ Hnd Hloop) as Hfield.
  simpl in Hfield. rewrite Hkeep, Hkept, Henc in Hfield.
  destruct Hfield as (ck & wk & value & r' & Hpre & Hgen & Hval).
  exists (stored_value s value). split; [|by rewrite Hval, Hsto].
  exists p1, wk, value, r'. split; [|by split].
  exists (p2 ++ key :: post)%list, ck.
  split; [by rewrite Hsplit, <- app_assoc|]. done.
Qed.

(** C7.  When the pass takes up a declared field and generating its value
    fails, [generateData] returns that error with a retry directive of
    thirty seconds, and the resource is the one the loop had reached, in
    which every field generated before holds the value written for it.  When
    the loop goes through all the declared fields without a failure,
    [generateData] returns the zero-value directive and no error. *)
Theorem generateData_retry_directive (w : GenState) :
  (forall pre key wi value e r',
     pass_reaches (inst w) (rng w) pre key wi ->
     GenerateRandomString (parsed_length (inst w)).1.1 (encoding_of (inst w))
       (parsed_length (inst w)).1.2 (rng wi) = Done (value, Some e) r' ->
     StringGenerator_generateData w =
       Done ({| Requeue := false; RequeueAfter := Second * 30 |}, Some e)
            {| inst := inst wi; rng := r' |}
     /\ (forall k, k ∈ pre ->
           keeps_field (regeneration_set (inst w)) (inst w) k = false ->
           exists v, generated_in_pass (inst w) (rng w) k v
                     /\ index (Data (inst wi)) k = Some v))
  /\ (forall count w2,
        ensureUniqueness (fields_to_generate (inst w)) = None ->
        (parsed_length (inst w)).2 = None ->
        generate_keys (regeneration_set (inst w)) (parsed_length (inst w)).1.1
          (parsed_length (inst w)).1.2 0 (fields_to_generate (inst w))
          {| inst := request_consumed (inst w); rng := rng w |}
        = Done (count, None) w2 ->
        (is_Some (Annotations (inst w)) ->
         exists w', StringGenerator_generateData w = Done (Result_zero, None) w')
        /\ (forall res err w',
              StringGenerator_generateData w = Done (res, err) w' ->
              res = Result_zero /\ err = None)).
Proof.
  destruct (request_consumed_settings (inst w)) as (Hpl & Henc & Hsto & Hkeep).
  split.
  - intros pre key wi value e r' Hreach Hgen.
    split; [|intros k; by apply (pass_reaches_earlier _ _ pre key wi)].
    destruct Hreach as (post & ci & Hsplit & Huniq & Hparsed & Hloop & Hkept).
    rewrite generateData_run, Huniq, Hpl.
    destruct (parsed_length (inst w)) as [[L B] [e'|]] eqn:Hp; [done|].
    simpl in *. rewrite Hsplit, generate_keys_app, Hloop, generate_keys_cons.
    destruct (generate_keys_frame _ _ _ _ _ _ _ _ _ Hloop) as (Ha & Hd & _).
    pose proof (proj1 (ensureUniqueness_None _) Huniq) as Hnd.
    rewrite Hsplit in Hnd. apply NoDup_app in Hnd as (_ & Hpre & _).
    assert (Hkey : index (Data (inst wi)) key
                   = index (Data (request_consumed (inst w))) key).
    { apply Hd. intros Hin. by apply (Hpre key Hin), list_elem_of_here. }
    rewrite (keeps_field_ext _ _ _ _ Hkey), Hkeep, Hkept.
    rewrite generateRandomSecret_run. simpl.
    assert (Henc' : encoding_of (inst wi) = encoding_of (inst w))
      by (rewrite <- Henc; unfold encoding_of; by rewrite Ha).
    by rewrite Henc', Hgen.
  - intros count w2 Huniq Hparsed Hloop.
    rewrite generateData_run, Huniq, Hpl.
    destruct (parsed_length (inst w)) as [[L B] [e'|]] eqn:Hp; [done|].
    simpl in Hloop. rewrite Hloop.
    destruct (generate_keys_frame _ _ _ _ _ _ _ _ _ Hloop) as (Ha & _).
    simpl in Ha. split.
    + intros Halloc. apply request_consumed_allocated in Halloc as [m Hm].
      destruct (count =? _); [|eauto]. rewrite Ha, Hm. simpl. eauto.
    + intros res err w'. destruct (count =? _); [|by intros [= <- <- _]].
      destruct (assign _ _ _); [|done]. by intros [= <- <- _].
Qed.

(** C9, as amended.  When the autogenerate annotation is absent or empty,
    the field list is the one-element list of the empty name; and unless the
    data map holds a non-empty value under the empty name that is not in the
    regeneration set, a pass of [generateData] that returns without error
    has stored under the empty name the value generated from the entropy the
    pass started with, and has set the secure marker. *)
Theorem generateData_without_field_list (w : GenState) :
  index (Annotations (inst w)) AnnotationSecretAutoGenerate = None
  \/ index (Annotations (inst w)) AnnotationSecretAutoGenerate = Some "" ->
  fields_to_generate (inst w) = [""]
  /\ (forall res w',
        StringGenerator_generateData w = Done (res, None) w' ->
        ~ (holds_value (inst w) "" /\ "" ∉ regeneration_set (inst w)) ->
        (exists value r',
            GenerateRandomString (parsed_length (inst w)).1.1 (encoding_of (inst w))
              (parsed_length (inst w)).1.2 (rng w) = Done (value, None) r'
            /\ index (Data (inst w')) "" = Some (stored_value (inst w) value))
        /\ index (Annotations (inst w')) AnnotationSecretSecure = Some "yes").
Proof.
  intros Habsent.
  assert (Hfields : fields_to_generate (inst w) = [""])
    by (unfold fields_to_generate; by destruct Habsent as [-> | ->]).
  split; [done|]. intros res w' Hrun Hnot.
  assert (Hkept : keeps_field (regeneration_set (inst w)) (inst w) "" = false)
    by (apply not_true_iff_false; by rewrite keeps_field_true).
  destruct (request_consumed_settings (inst w)) as (Hpl & Henc & Hsto & Hkeep).
  rewrite generateData_run, Hfields, Hpl in Hrun.
  destruct (ensureUniqueness _); [done|].
  destruct (parsed_length (inst w)) as [[L B] [e|]] eqn:Hp; [done|].
  rewrite generate_keys_cons, Hkeep, Hkept, generateRandomSecret_run in Hrun.
  simpl in Hrun. rewrite Henc in Hrun.
  destruct (GenerateRandomString L (encoding_of (inst w)) B (rng w))
    as [[value [e|]] r'|] eqn:Hgen; [done| |done].
  destruct (with_field _ _ _) as [s'|] eqn:Hs'; [|done].
  destruct (with_field_Some _ _ _ _ Hs') as (_ & Hk & _).
  rewrite Hsto in Hk. simpl in Hrun.
  destruct (Annotations s') as [m|]; [|done]. simpl in Hrun.
  injection Hrun as _ <-. simpl. split.
  - by exists value, r'.
  - apply lookup_insert_eq.
Qed.

End GeneratorClaims2.

(** ** What a reconciliation pass guarantees *)

Section ControllerClaims.
Context `{Constants} `{Config} `{Entropy} `{LengthParser} `{Client} `{!Siblings}.

Lemma Validate_None (st : string) :
  Validate st = None <-> st ∈ [TypeString; TypeSSHKeypair; TypeBasicAuth].
Proof. unfold Validate. case_bool_decide; naive_solver. Qed.

Lemma Validate_unset : Validate "" <> None.
Proof.
  rewrite Validate_None. pose proof type_tags_distinct as Hd.
  apply NoDup_cons in Hd as [Hd _]. exact Hd.
Qed.

Lemma Validate_String : Validate TypeString = None.
Proof. apply Validate_None, list_elem_of_here. Qed.

Lemma select_generator_String : select_generator TypeString = Some StringGenerator.
Proof.
  unfold select_generator. pose proof type_tags_distinct as Hd.
  apply NoDup_cons in Hd as [_ Hd]. apply NoDup_cons in Hd as [Hd _].
  destruct (String.eqb_spec TypeString TypeSSHKeypair) as [Heq|_].
  - exfalso. apply Hd. unfold TypeString in Heq. rewrite Heq.
    apply list_elem_of_here.
  - by rewrite String.eqb_refl.
Qed.

(** C1, as amended.  For a resource whose type annotation is absent or
    empty and whose annotations hold no autogenerate key, the reconciliation
    pass is a no-op: after the fetch it returns the zero-value directive and
    no error, before any write to the copy it works on, without reading the
    entropy source and without a call of [Update]. *)
Theorem Reconcile_unmanaged (request now : string) (w : ReconState)
    (instance : Secret) (api' : Api) :
  client_Get request (api w) = (instance, None, api') ->
  index (Annotations instance) AnnotationSecretType = None
  \/ index (Annotations instance) AnnotationSecretType = Some "" ->
  index (Annotations instance) AnnotationSecretAutoGenerate = None ->
  Reconcile request now w =
    Done (Result_zero, None)
         {| api := api'; entropy := entropy w; updated := updated w |}.
Proof.
  intros Hget Htype Hauto.
  unfold Reconcile, bind, do_Get. rewrite Hget.
  assert (Hst : default "" (index (Annotations instance) AnnotationSecretType) = "")
    by (by destruct Htype as [-> | ->]).
  rewrite Hst, Hauto.
  destruct (Validate "") eqn:Hv; [|by apply Validate_unset in Hv].
  rewrite bool_decide_eq_false_2 by (by intros [? ?]). done.
Qed.

(** C10, as amended.  When the type annotation is absent or invalid and the
    autogenerate annotation is present, the pass writes ["string"] into the
    type annotation of the copy it hands to the String generator; and when
    [generateData] returns without error, whatever it did to the data, the
    pass calls [Update] with a resource that carries that type annotation
    and the generated-at stamp. *)
Theorem Reconcile_defaults_type (request now : string) (w : ReconState)
    (instance : Secret) (api' : Api) (m : gmap string string)
    (res : Result) (g : GenState) :
  client_Get request (api w) = (instance, None, api') ->
  Annotations instance = Some m ->
  is_Some (m !! AnnotationSecretAutoGenerate) ->
  Validate (default "" (m !! AnnotationSecretType)) <> None ->
  StringGenerator_generateData
    {| inst := {| Annotations := Some (<[AnnotationSecretType := "string"]> m);
                  Data := Some (default ∅ (Data instance)) |};
       rng := entropy w |} = Done (res, None) g ->
  exists d result err api'',
    Reconcile request now w =
      Done (result, err)
           {| api := api''; entropy := rng g; updated := updated w ++ [d] |}
    /\ Data d = Data (inst g)
    /\ index (Annotations d) AnnotationSecretType = Some "string"
    /\ index (Annotations d) AnnotationSecretAutoGeneratedAt = Some now.
Proof.
  intros Hget Hm Hauto Hinvalid Hgen.
  destruct annotation_keys_ne as (Htr & Hts & Htg & _).
  pose proof (generateData_annotations _ _ _ _ AnnotationSecretType Hgen Htr Hts)
    as Htype.
  simpl in Htype. rewrite lookup_insert_eq in Htype.
  unfold Reconcile, bind, do_Get. rewrite Hget, Hm. simpl.
  destruct (Validate (default "" (m !! AnnotationSecretType))) eqn:Hv; [|done].
  rewrite (bool_decide_eq_true_2 _ Hauto). simpl.
  unfold reconcile_typed. rewrite select_generator_String. simpl.
  assert (Hdesired :
    match Data instance with
    | Some _ => {| Annotations := Some (<[AnnotationSecretType := TypeString]> m);
                   Data := Data instance |}
    | None => {| Annotations := Some (<[AnnotationSecretType := TypeString]> m);
                 Data := Some ∅ |}
    end = {| Annotations := Some (<[AnnotationSecretType := "string"]> m);
             Data := Some (default ∅ (Data instance)) |})
    by (by destruct (Data instance)).
  rewrite Hdesired. unfold bind, call_generateData. simpl. rewrite Hgen.
  destruct (Annotations (inst g)) as [m'|] eqn:Hm'; [|done]. simpl in Htype.
  assert (Hdiff : DeepEqual (Some m) (Some m') = false).
  { unfold DeepEqual. apply bool_decide_eq_false_2. intros [= ->].
    rewrite Htype in Hv. simpl in Hv. pose proof Validate_String as Hs.
    unfold TypeString in Hs. congruence. }
  rewrite Hm, Hdiff. simpl. unfold do_Update. simpl.
  destruct (client_Update _ api') as [uerr api''].
  assert (Hstamp :
    (<[AnnotationSecretAutoGeneratedAt := now]> m') !! AnnotationSecretType
    = Some "string") by (by rewrite lookup_insert_ne).
  destruct uerr; eexists _, _, _, api'';
    (split; [reflexivity|]); simpl; (split; [done|]);
    (split; [done|apply lookup_insert_eq]).
Qed.

(** C6.  On a resource whose declared fields all hold a non-empty value,
    without regenerate-request annotation and without forced regeneration:
    [generateData], run twice in a row from any state of the entropy source,
    returns both times, and the data map and the annotation map after the
    second run are those after the first (which are those before it); and a
    reconciliation pass that fetches such a resource with the String type
    makes no call of [Update] and leaves the entropy source as it was. *)
Theorem settled_resource_idempotent (s : Secret) :
  (forall key, key ∈ fields_to_generate s -> holds_value s key) ->
  index (Annotations s) AnnotationSecretRegenerate = None ->
  insecure_forced s = false ->
  (forall r : Rand, exists res1 err1 w1 res2 err2 w2,
      StringGenerator_generateData {| inst := s; rng := r |} = Done (res1, err1) w1
      /\ StringGenerator_generateData w1 = Done (res2, err2) w2
      /\ Data (inst w2) = Data (inst w1)
      /\ Annotations (inst w2) = Annotations (inst w1)
      /\ inst w1 = s)
  /\ (forall (request now : string) (w : ReconState) (api' : Api),
        client_Get request (api w) = (s, None, api') ->
        index (Annotations s) AnnotationSecretType = Some TypeString ->
        exists res err,
          Reconcile request now w =
            Done (res, err)
                 {| api := api'; entropy := entropy w; updated := updated w |}).
Proof.
  intros Hall Hreq Hforced. split.
  - intros r.
    destruct (generateData_settled {| inst := s; rng := r |} Hall Hreq Hforced)
      as (res & err & Hrun).
    exists res, err, {| inst := s; rng := r |}, res, err, {| inst := s; rng := r |}.
    done.
  - intros request now w api' Hget Htype.
    unfold Reconcile, bind, do_Get. rewrite Hget, Htype.
    change (default "" (Some TypeString)) with TypeString.
    rewrite Validate_String. unfold reconcile_typed.
    rewrite select_generator_String.
    assert (Hdata : is_Some (Data s)).
    { pose proof (Split_comma_not_nil
                    (default "" (index (Annotations s) AnnotationSecretAutoGenerate)))
        as Hnil.
      fold (fields_to_generate s) in Hnil.
      destruct (fields_to_generate s) as [|key rest] eqn:Hf; [done|].
      destruct (Hall key (list_elem_of_here _ _)) as (v & Hv & _).
      destruct (Data s); [eauto|done]. }
    destruct Hdata as [d Hd]. rewrite Hd.
    unfold bind, call_generateData. simpl.
    destruct (generateData_settled {| inst := s; rng := entropy w |}
                Hall Hreq Hforced) as (res & err & Hrun).
    rewrite Hrun. simpl. destruct err as [e|]; [by eexists _, _|].
    unfold DeepEqual. rewrite !bool_decide_eq_true_2 by done. simpl.
    by eexists _, _.
Qed.

End ControllerClaims.

(** * Further properties *)

(** ** More on the encodings *)

Lemma hex_EncodeToString_len (src : list byte) :
  Go.len (Go.hex_EncodeToString src) = 2 * Go.len src.
Proof. unfold Go.len. induction src as [|v rest IH]; simpl in *; lia. Qed.

Lemma base64_EncodeToString_len (enc src : list byte) :
  Go.len (Go.base64_EncodeToString enc src) = 4 * ((Go.len src + 2) / 3).
Proof.
  unfold Go.len.
  induction src as [| | |a b c rest IH] using list_ind3; try reflexivity.
  change (Go.base64_EncodeToString enc (a :: b :: c :: rest))
    with (Go.sextet enc (Go.group24 a b c) 18 :: Go.sextet enc (Go.group24 a b c) 12
          :: Go.sextet enc (Go.group24 a b c) 6 :: Go.sextet enc (Go.group24 a b c) 0
          :: Go.base64_EncodeToString enc rest).
  cbn [length].
  replace (Z.of_nat (S (S (S (length rest)))) + 2)
    with (Z.of_nat (length rest) + 2 + 1 * 3) by lia.
  rewrite Z.div_add by lia. lia.
Qed.

Lemma base32_EncodeToString_len (src : list byte) :
  Go.len (Go.base32_EncodeToString src) = 8 * ((Go.len src + 4) / 5).
Proof.
  unfold Go.len.
  induction src as [| | | | |a b c d e rest IH] using list_ind5; try reflexivity.
  change (Go.base32_EncodeToString (a :: b :: c :: d :: e :: rest))
    with (Go.quintets (Go.group40 a b c d e) 8 ++ Go.base32_EncodeToString rest)%list.
  rewrite length_app. change (length (Go.quintets (Go.group40 a b c d e) 8)) with 8%nat.
  cbn [length].
  replace (Z.of_nat (S (S (S (S (S (length rest)))))) + 4)
    with (Z.of_nat (length rest) + 4 + 1 * 5) by lia.
  rewrite Z.div_add by lia. lia.
Qed.

Lemma encode_len (encoding : string) (b : list byte) :
  Go.len (encode encoding b) = encoded_length encoding (Go.len b).
Proof.
  unfold encode, encoded_length.
  repeat case_match;
    auto using hex_EncodeToString_len, base64_EncodeToString_len,
               base32_EncodeToString_len.
Qed.

(** A digit taken at an index inside the table is a character of the table. *)
Lemma digit_in_table (table : list byte) (i : N) :
  (N.to_nat i < length table)%nat -> Go.digit table i ∈ table.
Proof.
  intros Hi. unfold Go.digit. apply list_elem_of_In. by apply nth_In.
Qed.

Lemma land_ones_bound (x : N) (k : N) : (N.land x (N.ones k) < 2 ^ k)%N.
Proof. rewrite N.land_ones. apply N.mod_upper_bound. by apply N.pow_nonzero. Qed.

Lemma hex_EncodeToString_alphabet (src : list byte) :
  Forall (fun c => c ∈ Go.hextable) (Go.hex_EncodeToString src).
Proof.
  induction src as [|v rest IH]; simpl; [constructor|].
  constructor; [|constructor; [|done]].
  - apply digit_in_table. pose proof (Byte.to_N_bounded v) as Hv.
    assert (N.shiftr (Byte.to_N v) 4 < 16)%N.
    { rewrite N.shiftr_div_pow2. change (2 ^ 4)%N with 16%N.
      apply N.Div0.div_lt_upper_bound. lia. }
    change (length Go.hextable) with 16%nat. lia.
  - apply digit_in_table. pose proof (land_ones_bound (Byte.to_N v) 4) as Hb.
    change (N.ones 4) with 15%N in Hb. change (2 ^ 4)%N with 16%N in Hb.
    change (length Go.hextable) with 16%nat. lia.
Qed.

Lemma sextet_in_table (enc : list byte) (val shift : N) :
  length enc = 64%nat -> Go.sextet enc val shift ∈ enc.
Proof.
  intros Hlen. unfold Go.sextet. apply digit_in_table.
  pose proof (land_ones_bound (N.shiftr val shift) 6) as Hb.
  change (N.ones 6) with 63%N in Hb. change (2 ^ 6)%N with 64%N in Hb. lia.
Qed.

Lemma base64_EncodeToString_alphabet (enc src : list byte) :
  length enc = 64%nat ->
  Forall (fun c => c ∈ Go.StdPadding :: enc) (Go.base64_EncodeToString enc src).
Proof.
  intros Hlen.
  assert (Hs : forall val shift, Go.sextet enc val shift ∈ Go.StdPadding :: enc)
    by (intros; apply list_elem_of_further; by apply sextet_in_table).
  assert (Hp : Go.StdPadding ∈ Go.StdPadding :: enc) by apply list_elem_of_here.
  induction src as [| | |a b c rest IH] using list_ind3.
  - constructor.
  - simpl. repeat (constructor; [by auto|]). constructor.
  - simpl. repeat (constructor; [by auto|]). constructor.
  - change (Go.base64_EncodeToString enc (a :: b :: c :: rest))
      with (Go.sextet enc (Go.group24 a b c) 18 :: Go.sextet enc (Go.group24 a b c) 12
            :: Go.sextet enc (Go.group24 a b c) 6 :: Go.sextet enc (Go.group24 a b c) 0
            :: Go.base64_EncodeToString enc rest).
    repeat (constructor; [by auto|]). done.
Qed.

Lemma quintets_alphabet (val : N) (count : nat) :
  Forall (fun c => c ∈ Go.StdPadding :: Go.encodeStd32) (Go.quintets val count).
Proof.
  unfold Go.quintets. apply Forall_map, Forall_forall. intros i _. simpl.
  apply list_elem_of_further. unfold Go.quintet. apply digit_in_table.
  pose proof (land_ones_bound (N.shiftr val (35 - 5 * N.of_nat i)) 5) as Hb.
  change (N.ones 5) with 31%N in Hb. change (2 ^ 5)%N with 32%N in Hb.
  change (length Go.encodeStd32) with 32%nat. lia.
Qed.

Lemma base32_EncodeToString_alphabet (src : list byte) :
  Forall (fun c => c ∈ Go.StdPadding :: Go.encodeStd32) (Go.base32_EncodeToString src).
Proof.
  assert (Hp : forall k, Forall (fun c => c ∈ Go.StdPadding :: Go.encodeStd32)
                           (replicate k Go.StdPadding)).
  { intros k. apply Forall_replicate, list_elem_of_here. }
  induction src as [| | | | |a b c d e rest IH] using list_ind5;
    try (apply Forall_app; split; [apply quintets_alphabet|apply Hp]).
  - constructor.
  - change (Go.base32_EncodeToString (a :: b :: c :: d :: e :: rest))
      with (Go.quintets (Go.group40 a b c d e) 8 ++ Go.base32_EncodeToString rest)%list.
    apply Forall_app. split; [apply quintets_alphabet|done].
Qed.

Lemma encode_alphabet (encoding : string) (b : list byte) :
  Forall (fun c => c ∈ encoding_alphabet encoding) (encode encoding b).
Proof.
  unfold encode, encoding_alphabet.
  repeat case_match;
    auto using hex_EncodeToString_alphabet, base32_EncodeToString_alphabet,
               base64_EncodeToString_alphabet.
Qed.

Section EncoderFurther.
Context `{Entropy}.

(** X1.  With the byte-length flag and an encoding that produces text,
    [GenerateRandomString] for a length [n >= 0] returns whenever the entropy
    source delivers, and what it returns without error is the whole encoding
    of the [n] bytes read, not cut: [2n] characters for hex, [4 * ceil(n/3)]
    for the base64 encodings and [8 * ceil(n/5)] for base32. *)
Theorem GenerateRandomString_byte_length (n : Z) (encoding : string) (r : Rand) :
  0 <= n ->
  encoding <> "raw" ->
  ((rand_Read (Z.to_nat n) r).1.2 = None ->
   exists value r', GenerateRandomString n encoding true r = Done (value, None) r')
  /\ (forall value r',
        GenerateRandomString n encoding true r = Done (value, None) r' ->
        value = encode encoding (rand_Read (Z.to_nat n) r).1.1
        /\ Go.len value = encoded_length encoding n).
Proof.
  intros Hn Hraw.
  rewrite (GenerateRandomString_unfold n encoding true r Hn).
  rewrite (proj2 (String.eqb_neq encoding "raw") Hraw).
  pose proof (rand_Read_length (Z.to_nat n) r) as Hlen.
  destruct ((rand_Read (Z.to_nat n) r).1.2) as [e|].
  - split; [done|]. intros value r' [=].
  - split; [eauto|]. intros value r' [= <- _]. split; [done|].
    rewrite encode_len. unfold Go.len. rewrite Hlen. f_equal. lia.
Qed.

(** X2.  Whatever the flag, the text [GenerateRandomString] returns for an
    encoding other than ["raw"] is made of the characters of that encoding's
    alphabet and of the padding character only; for hex, of the sixteen
    lowercase digits only. *)
Theorem GenerateRandomString_alphabet (n : Z) (encoding : string) (lenBytes : bool)
    (r r' : Rand) (value : list byte) :
  0 <= n ->
  encoding <> "raw" ->
  GenerateRandomString n encoding lenBytes r = Done (value, None) r' ->
  Forall (fun c => c ∈ encoding_alphabet encoding) value.
Proof.
  intros Hn Hraw.
  rewrite (GenerateRandomString_unfold n encoding lenBytes r Hn).
  rewrite (proj2 (String.eqb_neq encoding "raw") Hraw).
  destruct ((rand_Read (Z.to_nat n) r).1.2) as [e|]; [done|].
  destruct lenBytes; intros [= <- _].
  - apply encode_alphabet.
  - apply Forall_take, encode_alphabet.
Qed.


(** X4.  An encoding name the [switch] does not know is treated as base64. *)
Theorem GenerateRandomString_unknown_encoding (n : Z) (encoding : string)
    (lenBytes : bool) (r : Rand) :
  encoding ∉ ["base64url"; "raw"; "base32"; "hex"] ->
  GenerateRandomString n encoding lenBytes r
  = GenerateRandomString n "base64" lenBytes r.
Proof.
  intros Hunknown.
  assert (Hne : forall known, known ∈ ["base64url"; "raw"; "base32"; "hex"] ->
                              String.eqb encoding known = false).
  { intros known Hin. apply String.eqb_neq. intros ->. by apply Hunknown. }
  unfold GenerateRandomString, encode.
  rewrite (Hne "base64url"), (Hne "raw"), (Hne "base32"), (Hne "hex")
    by (repeat first [apply list_elem_of_here|apply list_elem_of_further]).
  reflexivity.
Qed.

End EncoderFurther.

(** ** The template *)

Lemma HasPrefix_app (old s : list byte) : Go.HasPrefix (old ++ s) old = true.
Proof.
  induction old as [|c old IH]; [by destruct s|]. simpl.
  assert (Hc : Byte.eqb c c = true) by (by apply Byte.byte_dec_lb).
  by rewrite Hc, IH.
Qed.

Lemma replace_from_skip (l s old new : list byte) :
  Go.replace_from (length l) (l ++ s) old new = Go.replace_from 0 s old new.
Proof. induction l as [|c l IH]; [done|]. simpl. exact IH. Qed.



(** At an occurrence of the placeholder the scan puts the value. *)
Lemma replace_from_placeholder (s new : list byte) :
  Go.replace_from 0 (Go.bytes_of templateKey ++ s) (Go.bytes_of templateKey) new
  = (new ++ Go.replace_from 0 s (Go.bytes_of templateKey) new)%list.
Proof.
  change (Go.bytes_of templateKey) with (dollar :: Go.bytes_of "{SECRET}") at 1.
  rewrite <- app_comm_cons.
  change (Go.replace_from 0 (dollar :: (Go.bytes_of "{SECRET}" ++ s)%list)
            (Go.bytes_of templateKey) new)
    with (if Go.HasPrefix (Go.bytes_of templateKey ++ s) (Go.bytes_of templateKey)
          then (new ++ Go.replace_from (length (Go.bytes_of "{SECRET}"))
                         (Go.bytes_of "{SECRET}" ++ s)
                         (Go.bytes_of templateKey) new)%list
          else dollar :: Go.replace_from 0 (Go.bytes_of "{SECRET}" ++ s)
                                         (Go.bytes_of templateKey) new).
  by rewrite HasPrefix_app, replace_from_skip.
Qed.

Section TemplateProperties.
Context `{Constants}.



Lemma template_of_default (s : Secret) :
  index (Annotations s) AnnotationSecretTemplate = None ->
  template_of s = templateKey.
Proof.
  intros Hnone. unfold template_of, getTemplateFromAnnotation. by rewrite Hnone.
Qed.

End TemplateProperties.

(** ** More on the String generator *)

(** Proves that two annotation keys differ. *)
Ltac key_ne :=
  let Hd := fresh "Hd" in
  pose proof annotation_keys_distinct as Hd;
  repeat (let Hx := fresh "Hx" in
          apply NoDup_cons in Hd as [Hx Hd]; rewrite !not_elem_of_cons in Hx);
  intuition congruence.

Section EncoderReturns.
Context `{Entropy}.


Lemma GenerateRandomString_Done_length (n : Z) (encoding : string) (lenBytes : bool)
    (r r' : Rand) (out : list byte * option error) :
  GenerateRandomString n encoding lenBytes r = Done out r' -> 0 <= n.
Proof.
  unfold GenerateRandomString. destruct (Z.ltb_spec n 0); [done|]. lia.
Qed.

End EncoderReturns.

Lemma ReplaceAll_placeholder (value : list byte) :
  Go.ReplaceAll (Go.bytes_of templateKey) (Go.bytes_of templateKey) value = value.
Proof.
  unfold Go.ReplaceAll.
  pose proof (replace_from_placeholder [] value) as Hscan.
  rewrite app_nil_r in Hscan. rewrite Hscan. simpl. apply app_nil_r.
Qed.

Lemma ensureUniqueness_from_Some (set : gmap string bool) (a : list string)
    (err : error) :
  (forall e v, set !! e = Some v -> v = true) ->
  ensureUniqueness_from set a = Some err ->
  exists pre e post,
    a = (pre ++ e :: post)%list
    /\ NoDup pre
    /\ (forall x, x ∈ pre -> set !! x = None)
    /\ (e ∈ pre \/ set !! e = Some true)
    /\ err = errorString ("duplicate element " ++ e ++ " found").
Proof.
  revert set. induction a as [|x rest IH]; intros set Hset; simpl; [done|].
  destruct (set !! x) as [v|] eqn:Hlook; simpl.
  - rewrite (Hset x v Hlook). intros [= <-].
    exists [], x, rest. split; [done|]. split; [constructor|].
    split; [intros y Hy; by apply elem_of_nil in Hy|].
    split; [right; by rewrite Hlook, (Hset x v Hlook)|done].
  - intros Hrun. apply IH in Hrun as (pre & e & post & -> & Hnd & Hfree & He & ->).
    + exists (x :: pre), e, post. split; [done|].
      assert (Hx : x ∉ pre).
      { intros Hin. specialize (Hfree x Hin). by rewrite lookup_insert_eq in Hfree. }
      split; [by constructor|]. split.
      * intros y Hy. apply elem_of_cons in Hy as [->|Hy]; [done|].
        specialize (Hfree y Hy).
        destruct (decide (x = y)) as [->|Hne]; [done|].
        by rewrite lookup_insert_ne in Hfree.
      * split; [|done]. destruct He as [He|He].
        -- left. by apply list_elem_of_further.
        -- destruct (decide (x = e)) as [->|Hne].
           ++ left. apply list_elem_of_here.
           ++ right. by rewrite lookup_insert_ne in He.
    + intros y v. destruct (decide (x = y)) as [->|Hne].
      * rewrite lookup_insert_eq. congruence.
      * rewrite lookup_insert_ne by done. apply Hset.
Qed.

(** X7.  [ensureUniqueness] returns no error exactly on a list without repeated
    element; the error it returns otherwise names the first element that
    repeats an earlier one. *)
Theorem ensureUniqueness_first_duplicate (a : list string) :
  (ensureUniqueness a = None <-> NoDup a)
  /\ (forall err,
        ensureUniqueness a = Some err ->
        exists pre e post,
          a = (pre ++ e :: post)%list /\ NoDup pre /\ e ∈ pre
          /\ err = errorString ("duplicate element " ++ e ++ " found")).
Proof.
  split; [apply ensureUniqueness_None|].
  intros err Hrun. apply ensureUniqueness_from_Some in Hrun
    as (pre & e & post & -> & Hnd & _ & He & ->).
  - exists pre, e, post. split; [done|]. split; [done|]. split; [|done].
    destruct He as [He|He]; [done|]. by rewrite lookup_empty in He.
  - intros e v. by rewrite lookup_empty.
Qed.

Section GeneratorLoop.
Context `{Constants} `{Config} `{Entropy} `{LengthParser}.

Lemma generateRandomSecret_field_stays (conf : secretConfig) (w w' : GenState)
    (err : option error) (k : string) :
  generateRandomSecret conf w = Done err w' ->
  is_Some (index (Data (inst w)) k) -> is_Some (index (Data (inst w')) k).
Proof.
  rewrite generateRandomSecret_run.
  destruct (GenerateRandomString _ _ _ _) as [[value [e|]] r'|]; [| |done].
  - by intros [= <- <-].
  - destruct (with_field _ _ _) as [s'|] eqn:Hs'; [|done].
    intros [= <- <-]. simpl.
    destruct (with_field_Some _ _ _ _ Hs') as (_ & Hk & Hother).
    destruct (decide (k = key conf)) as [->|Hne]; [by rewrite Hk|].
    by rewrite Hother.
Qed.

Lemma generate_keys_field_stays (regenKeys : list string) (L : Z) (B : bool)
    (keys : list string) (c c' : Z) (err : option error) (w w' : GenState)
    (k : string) :
  generate_keys regenKeys L B c keys w = Done (c', err) w' ->
  is_Some (index (Data (inst w)) k) -> is_Some (index (Data (inst w')) k).
Proof.
  revert c w. induction keys as [|key rest IH]; intros c w.
  - by intros [= <- <- <-].
  - rewrite generate_keys_cons.
    destruct (keeps_field regenKeys (inst w) key); [apply IH|].
    destruct (generateRandomSecret _ w) as [[e|] w1|] eqn:Hgen; [| |done].
    + intros [= <- <- <-]. by eapply generateRandomSecret_field_stays.
    + intros Hrun Hk. eapply IH; [done|].
      by eapply generateRandomSecret_field_stays.
Qed.

(** The count of a loop that ends well over a duplicate-free list. *)
Lemma generate_keys_count (regenKeys : list string) (L : Z) (B : bool)
    (keys : list string) (c c' : Z) (w w' : GenState) :
  NoDup keys ->
  generate_keys regenKeys L B c keys w = Done (c', None) w' ->
  ((forall k, k ∈ keys -> keeps_field regenKeys (inst w) k = false) ->
   c' = c + Go.len keys)
  /\ ((exists k, k ∈ keys /\ keeps_field regenKeys (inst w) k = true) ->
      c' < c + Go.len keys).
Proof.
  revert c w. induction keys as [|key rest IH]; intros c w Hnd.
  - intros [= <- _]. unfold Go.len. simpl.
    split; [lia|]. intros (k & Hk & _). by apply elem_of_nil in Hk.
  - apply NoDup_cons in Hnd as [Hfresh Hnd].
    assert (Hlen : Go.len (key :: rest) = Go.len rest + 1)
      by (unfold Go.len; simpl; lia).
    rewrite generate_keys_cons, Hlen.
    destruct (keeps_field regenKeys (inst w) key) eqn:Hkey.
    + intros Hrun. split.
      * intros Hnone. specialize (Hnone key (list_elem_of_here _ _)). congruence.
      * intros _. destruct (generate_keys_frame _ _ _ _ _ _ _ _ _ Hrun) as (_ & _ & Hc).
        lia.
    + destruct (generateRandomSecret _ w) as [[e|] w1|] eqn:Hgen; [done| |done].
      intros Hrun.
      destruct (generateRandomSecret_Done _ _ _ _ Hgen) as (_ & Hd & _).
      assert (Hsame : forall k, k ∈ rest ->
                keeps_field regenKeys (inst w1) k = keeps_field regenKeys (inst w) k).
      { intros k Hk. apply keeps_field_ext, Hd. simpl. by intros ->. }
      destruct (IH _ _ Hnd Hrun) as [Hall Hsome]. split.
      * intros Hnone. rewrite Hall; [lia|]. intros k Hk. rewrite Hsame by done.
        apply Hnone. by apply list_elem_of_further.
      * intros (k & Hk & Hkept). apply elem_of_cons in Hk as [->|Hk]; [congruence|].
        assert (c' < c + 1 + Go.len rest); [|lia].
        apply Hsome. exists k. split; [done|]. by rewrite Hsame.
Qed.

(** A loop that ends with an error has come, without error, to a field it
    does not leave alone, and generating for that field has failed. *)
Lemma generate_keys_error (regenKeys : list string) (L : Z) (B : bool)
    (keys : list string) (c c' : Z) (e : error) (w w' : GenState) :
  generate_keys regenKeys L B c keys w = Done (c', Some e) w' ->
  exists pre key post ci wi value r',
    keys = (pre ++ key :: post)%list
    /\ generate_keys regenKeys L B c pre w = Done (ci, None) wi
    /\ keeps_field regenKeys (inst wi) key = false
    /\ GenerateRandomString L (encoding_of (inst wi)) B (rng wi)
       = Done (value, Some e) r'
    /\ w' = {| inst := inst wi; rng := r' |}.
Proof.
  revert c w. induction keys as [|key rest IH]; intros c w; [done|].
  rewrite generate_keys_cons.
  destruct (keeps_field regenKeys (inst w) key) eqn:Hkey.
  - intros Hrun.
    apply IH in Hrun as (pre & k & post & ci & wi & value & r' & -> & Hpre & Hrest).
    exists (key :: pre), k, post, ci, wi, value, r'. split; [done|].
    split; [|done]. by rewrite generate_keys_cons, Hkey.
  - destruct (generateRandomSecret _ w) as [[e'|] w1|] eqn:Hgen; [| |done].
    + intros [= <- <- <-]. rewrite generateRandomSecret_run in Hgen. simpl in Hgen.
      destruct (GenerateRandomString L (encoding_of (inst w)) B (rng w))
        as [[value [e''|]] r'|] eqn:Hrand; [| |done].
      * injection Hgen as <- <-.
        exists [], key, rest, c, w, value, r'. done.
      * by destruct (with_field _ _ _).
    + intros Hrun.
      apply IH in Hrun as (pre & k & post & ci & wi & value & r' & -> & Hpre & Hrest).
      exists (key :: pre), k, post, ci, wi, value, r'. split; [done|].
      split; [|done]. by rewrite generate_keys_cons, Hkey, Hgen.
Qed.


End GeneratorLoop.

Section GeneratorFurther.
Context `{Constants} `{Config} `{Entropy} `{LengthParser}.

(** What lies behind a pass that returns without error. *)
Lemma generateData_success_inv (w w' : GenState) (res : Result) :
  StringGenerator_generateData w = Done (res, None) w' ->
  exists count w2,
    NoDup (fields_to_generate (inst w))
    /\ (parsed_length (inst w)).2 = None
    /\ generate_keys (regeneration_set (inst w)) (parsed_length (inst w)).1.1
         (parsed_length (inst w)).1.2 0 (fields_to_generate (inst w))
         {| inst := request_consumed (inst w); rng := rng w |} = Done (count, None) w2
    /\ res = Result_zero
    /\ Data (inst w') = Data (inst w2)
    /\ rng w' = rng w2
    /\ Annotations (inst w2) = Annotations (request_consumed (inst w))
    /\ (if count =? Go.len (fields_to_generate (inst w))
        then exists m, Annotations (inst w2) = Some m
                       /\ Annotations (inst w')
                          = Some (<[AnnotationSecretSecure := "yes"]> m)
        else Annotations (inst w') = Annotations (inst w2)).
Proof.
  rewrite generateData_run.
  destruct (ensureUniqueness _) eqn:Huniq; [done|].
  apply ensureUniqueness_None in Huniq.
  destruct (request_consumed_settings (inst w)) as (-> & _).
  destruct (parsed_length (inst w)) as [[L B] [e|]]; [done|]. simpl.
  destruct (generate_keys _ L B 0 _ _) as [[count [e|]] w2|] eqn:Hloop;
    [done| |done].
  destruct (generate_keys_frame _ _ _ _ _ _ _ _ _ Hloop) as (Ha & _).
  simpl in Ha. intros Hrun. exists count, w2.
  destruct (count =? _).
  - destruct (Annotations (inst w2)) as [m|] eqn:Hm; [|done]. simpl in Hrun.
    injection Hrun as <- <-. simpl.
    repeat (split; [first [done|congruence]|]). by exists m.
  - injection Hrun as <- <-. by rewrite Ha.
Qed.

(** X8.  Under the insecure-regeneration policy a resource without secure marker
    has every declared field regenerated by a pass that returns without
    error, whatever the fields held; the pass sets the secure marker, and it
    leaves a regeneration request where it was: this branch does not consume
    it. *)
Theorem generateData_insecure_forced (w w' : GenState) (res : Result) :
  index (Annotations (inst w)) AnnotationSecretSecure = None ->
  RegenerateInsecure = true ->
  StringGenerator_generateData w = Done (res, None) w' ->
  (forall key, key ∈ fields_to_generate (inst w) ->
     exists v, generated_in_pass (inst w) (rng w) key v
               /\ index (Data (inst w')) key = Some v)
  /\ index (Annotations (inst w')) AnnotationSecretSecure = Some "yes"
  /\ index (Annotations (inst w')) AnnotationSecretRegenerate
     = index (Annotations (inst w)) AnnotationSecretRegenerate.
Proof.
  intros Hmarker Hpolicy Hrun.
  assert (Hforced : insecure_forced (inst w) = true).
  { unfold insecure_forced. rewrite Hmarker, Hpolicy.
    rewrite bool_decide_eq_false_2; [done|]. by intros [? ?]. }
  assert (Hset : regeneration_set (inst w) = fields_to_generate (inst w))
    by (unfold regeneration_set; by rewrite Hforced).
  assert (Hsame : request_consumed (inst w) = inst w)
    by (unfold request_consumed; by rewrite Hforced).
  assert (Hnone : forall key, key ∈ fields_to_generate (inst w) ->
            keeps_field (regeneration_set (inst w)) (inst w) key = false).
  { intros key Hin. unfold keeps_field.
    rewrite Hset, (proj2 (contains_true _ _) Hin). apply andb_false_r. }
  split; [intros key Hin; eapply generateData_success_fields; eauto|].
  destruct (generateData_success_inv _ _ _ Hrun)
    as (count & w2 & Hnd & _ & Hloop & _ & _ & _ & Ha & Hmark).
  rewrite Hsame in Hloop, Ha.
  destruct (generate_keys_count _ _ _ _ _ _ _ _ Hnd Hloop) as [Hall _].
  rewrite (Hall Hnone), Z.add_0_l, Z.eqb_refl in Hmark.
  destruct Hmark as (m & Hm & ->). simpl. split; [apply lookup_insert_eq|].
  rewrite lookup_insert_ne by key_ne.
  change (m !! AnnotationSecretRegenerate)
    with (index (Some m) AnnotationSecretRegenerate).
  by rewrite <- Hm, Ha.
Qed.

(** X9.  After a pass that returns without error the secure marker is ["yes"] if
    the pass generated every declared field; if it left a declared field
    alone, the secure annotation is as it was before the pass. *)
Theorem generateData_secure_marker (w w' : GenState) (res : Result) :
  StringGenerator_generateData w = Done (res, None) w' ->
  ((forall key, key ∈ fields_to_generate (inst w) ->
      ~ (holds_value (inst w) key /\ key ∉ regeneration_set (inst w))) ->
   index (Annotations (inst w')) AnnotationSecretSecure = Some "yes")
  /\ ((exists key, key ∈ fields_to_generate (inst w)
                   /\ holds_value (inst w) key
                   /\ key ∉ regeneration_set (inst w)) ->
      index (Annotations (inst w')) AnnotationSecretSecure
      = index (Annotations (inst w)) AnnotationSecretSecure).
Proof.
  intros Hrun.
  destruct (generateData_success_inv _ _ _ Hrun)
    as (count & w2 & Hnd & _ & Hloop & _ & _ & _ & Ha & Hmark).
  destruct (generate_keys_count _ _ _ _ _ _ _ _ Hnd Hloop) as [Hall Hsome].
  destruct (request_consumed_settings (inst w)) as (_ & _ & _ & Hkeep).
  simpl in Hall, Hsome. split.
  - intros Hnone. rewrite Hall, Z.add_0_l, Z.eqb_refl in Hmark.
    + destruct Hmark as (m & _ & ->). apply lookup_insert_eq.
    + intros key Hin. rewrite Hkeep. apply not_true_iff_false.
      rewrite keeps_field_true. by apply Hnone.
  - intros (key & Hin & Hheld & Hnot).
    assert (Hlt : count < 0 + Go.len (fields_to_generate (inst w))).
    { apply Hsome. exists key. split; [done|]. rewrite Hkeep.
      by apply keeps_field_true. }
    rewrite (proj2 (Z.eqb_neq _ _)) in Hmark by lia.
    rewrite Hmark, Ha. apply request_consumed_other. key_ne.
Qed.

Lemma generateData_undeclared (w w' : GenState) (res : Result) (err : option error)
    (k : string) :
  StringGenerator_generateData w = Done (res, err) w' ->
  k ∉ fields_to_generate (inst w) ->
  index (Data (inst w')) k = index (Data (inst w)) k.
Proof.
  intros Hrun Hk. rewrite generateData_run in Hrun.
  destruct (ensureUniqueness _); [by injection Hrun as _ _ <-|].
  destruct (parsed_length _) as [[L B] [e|]].
  { injection Hrun as _ _ <-. simpl. by rewrite request_consumed_Data. }
  destruct (generate_keys _ L B 0 _ _) as [[count [e|]] w2|] eqn:Hloop; [| |done].
  all: destruct (generate_keys_frame _ _ _ _ _ _ _ _ _ Hloop) as (_ & Hd & _).
  all: specialize (Hd k Hk); simpl in Hd; rewrite request_consumed_Data in Hd.
  - by injection Hrun as _ _ <-.
  - destruct (count =? _); [|by injection Hrun as _ _ <-].
    destruct (assign _ _ _); [|done]. by injection Hrun as _ _ <-.
Qed.

Lemma generateData_field_stays (w w' : GenState) (res : Result) (err : option error)
    (k : string) :
  StringGenerator_generateData w = Done (res, err) w' ->
  is_Some (index (Data (inst w)) k) -> is_Some (index (Data (inst w')) k).
Proof.
  intros Hrun Hk. rewrite generateData_run in Hrun.
  destruct (ensureUniqueness _); [by injection Hrun as _ _ <-|].
  destruct (parsed_length _) as [[L B] [e|]].
  { injection Hrun as _ _ <-. simpl. by rewrite request_consumed_Data. }
  destruct (generate_keys _ L B 0 _ _) as [[count [e|]] w2|] eqn:Hloop; [| |done].
  all: pose proof (generate_keys_field_stays _ _ _ _ _ _ _ _ _ k Hloop) as Hstay.
  all: simpl in Hstay; rewrite request_consumed_Data in Hstay.
  all: specialize (Hstay Hk).
  - by injection Hrun as _ _ <-.
  - destruct (count =? _); [|by injection Hrun as _ _ <-].
    destruct (assign _ _ _); [|done]. by injection Hrun as _ _ <-.
Qed.

(** An annotation after [generateData] is the one before, or the one left
    when the request was consumed, or the secure marker just set. *)
Lemma generateData_annotation_cases (w w' : GenState) (res : Result)
    (err : option error) (k : string) :
  StringGenerator_generateData w = Done (res, err) w' ->
  index (Annotations (inst w')) k = index (Annotations (inst w)) k
  \/ index (Annotations (inst w')) k
     = index (Annotations (request_consumed (inst w))) k
  \/ (k = AnnotationSecretSecure /\ index (Annotations (inst w')) k = Some "yes").
Proof.
  intros Hrun. rewrite generateData_run in Hrun.
  destruct (ensureUniqueness _); [injection Hrun as _ _ <-; by left|].
  destruct (parsed_length _) as [[L B] [e|]];
    [injection Hrun as _ _ <-; right; by left|].
  destruct (generate_keys _ L B 0 _ _) as [[count [e|]] w2|] eqn:Hloop;
    [| |done].
  all: destruct (generate_keys_frame _ _ _ _ _ _ _ _ _ Hloop) as (Ha & _).
  all: simpl in Ha.
  - injection Hrun as _ _ <-. right. left. by rewrite Ha.
  - destruct (count =? _);
      [|injection Hrun as _ _ <-; right; left; by rewrite Ha].
    destruct (Annotations (inst w2)) as [m|] eqn:Hm; [|done]. simpl in Hrun.
    injection Hrun as _ _ <-. simpl.
    destruct (decide (k = AnnotationSecretSecure)) as [->|Hne].
    + right. right. split; [done|]. apply lookup_insert_eq.
    + right. left. rewrite lookup_insert_ne by done.
      change (m !! k) with (index (Some m) k). by rewrite Ha.
Qed.

Lemma request_consumed_no_request (s : Secret) :
  index (Annotations s) AnnotationSecretRegenerate = None ->
  index (Annotations (request_consumed s)) AnnotationSecretRegenerate = None.
Proof.
  intros Hnone. unfold request_consumed.
  destruct (insecure_forced s); [done|]. by rewrite Hnone.
Qed.

(** X10.  What [generateData] never does, however it returns: it changes no data
    field outside the declared list, removes no data field, changes no
    annotation other than the regeneration request and the secure marker,
    removes no secure marker and adds no regeneration request. *)
Theorem generateData_frame (w w' : GenState) (res : Result) (err : option error) :
  StringGenerator_generateData w = Done (res, err) w' ->
  (forall k, k ∉ fields_to_generate (inst w) ->
     index (Data (inst w')) k = index (Data (inst w)) k)
  /\ (forall k, is_Some (index (Data (inst w)) k) ->
        is_Some (index (Data (inst w')) k))
  /\ (forall k, k <> AnnotationSecretRegenerate -> k <> AnnotationSecretSecure ->
        index (Annotations (inst w')) k = index (Annotations (inst w)) k)
  /\ (is_Some (index (Annotations (inst w)) AnnotationSecretSecure) ->
      is_Some (index (Annotations (inst w')) AnnotationSecretSecure))
  /\ (index (Annotations (inst w)) AnnotationSecretRegenerate = None ->
      index (Annotations (inst w')) AnnotationSecretRegenerate = None).
Proof.
  intros Hrun.
  split; [intros k; by eapply generateData_undeclared|].
  split; [intros k; by eapply generateData_field_stays|].
  split; [intros k; by eapply generateData_annotations|].
  split.
  - intros Hmarker.
    destruct (generateData_annotation_cases _ _ _ _ AnnotationSecretSecure Hrun)
      as [-> | [-> | [_ ->]]]; [done| |eauto].
    rewrite request_consumed_other; [done|key_ne].
  - intros Hnone.
    destruct (generateData_annotation_cases _ _ _ _ AnnotationSecretRegenerate Hrun)
      as [-> | [-> | [Heq _]]]; [done|by apply request_consumed_no_request|].
    exfalso. revert Heq. key_ne.
Qed.

End GeneratorFurther.

Section GeneratorConvergence.
Context `{Constants} `{Config} `{Entropy} `{LengthParser}.

(** X11.  The errors [generateData] can return, and the directive that goes with
    each: the error of the uniqueness check, with the zero-value directive
    and nothing changed; the error of the length parser, with the zero-value
    directive, when the regeneration request has already been consumed but
    no field was generated and no entropy read; or the error of the entropy
    source for a field the loop had come to, with the directive of thirty
    seconds.  There is no other. *)
Theorem generateData_error_cases (w w' : GenState) (res : Result) (e : error) :
  StringGenerator_generateData w = Done (res, Some e) w' ->
  (ensureUniqueness (fields_to_generate (inst w)) = Some e
   /\ res = Result_zero /\ w' = w)
  \/ (ensureUniqueness (fields_to_generate (inst w)) = None
      /\ (parsed_length (inst w)).2 = Some e
      /\ res = Result_zero
      /\ w' = {| inst := request_consumed (inst w); rng := rng w |})
  \/ (res = {| Requeue := false; RequeueAfter := Second * 30 |}
      /\ exists pre key wi value r',
          pass_reaches (inst w) (rng w) pre key wi
          /\ GenerateRandomString (parsed_length (inst w)).1.1 (encoding_of (inst w))
               (parsed_length (inst w)).1.2 (rng wi) = Done (value, Some e) r'
          /\ w' = {| inst := inst wi; rng := r' |}).
Proof.
  rewrite generateData_run.
  destruct (ensureUniqueness _) as [e0|] eqn:Huniq.
  { intros [= <- <- <-]. by left. }
  destruct (request_consumed_settings (inst w)) as (-> & Henc & _ & Hkeep).
  destruct (parsed_length (inst w)) as [[L B] [e0|]] eqn:Hp.
  { intros [= <- <- <-]. right. by left. }
  destruct (generate_keys _ L B 0 _ _) as [[count [e0|]] w2|] eqn:Hloop;
    [| |done].
  - intros [= <- <- <-]. right. right. split; [done|].
    destruct (generate_keys_error _ _ _ _ _ _ _ _ _ Hloop)
      as (pre & key & post & ci & wi & value & r' & Hsplit & Hpre & Hkey & Hrand & ->).
    destruct (generate_keys_frame _ _ _ _ _ _ _ _ _ Hpre) as (Ha & Hd & _).
    simpl in Ha, Hd.
    pose proof (proj1 (ensureUniqueness_None _) Huniq) as Hnd.
    rewrite Hsplit in Hnd. apply NoDup_app in Hnd as (_ & Hfresh & _).
    assert (Hsame : index (Data (inst wi)) key
                    = index (Data (request_consumed (inst w))) key).
    { apply Hd. intros Hin. by apply (Hfresh key Hin), list_elem_of_here. }
    rewrite (keeps_field_ext _ _ _ _ Hsame), Hkeep in Hkey.
    assert (Henc' : encoding_of (inst wi) = encoding_of (inst w))
      by (rewrite <- Henc; unfold encoding_of; by rewrite Ha).
    rewrite Henc' in Hrand.
    exists pre, key, wi, value, r'. split; [|done].
    exists post, ci. rewrite Hp. done.
  - destruct (count =? _); [|done]. by destruct (assign _ _ _).
Qed.



(** After a pass that returned without error the resource declares the same
    fields, carries no regeneration request and is not forced; the last two
    fail only when the pass was forced while a request was present. *)
Lemma generateData_settles (w w' : GenState) (res : Result) :
  insecure_forced (inst w) = false
  \/ index (Annotations (inst w)) AnnotationSecretRegenerate = None ->
  StringGenerator_generateData w = Done (res, None) w' ->
  fields_to_generate (inst w') = fields_to_generate (inst w)
  /\ index (Annotations (inst w')) AnnotationSecretRegenerate = None
  /\ insecure_forced (inst w') = false.
Proof.
  intros Hcase Hrun.
  assert (Hfields : fields_to_generate (inst w') = fields_to_generate (inst w)).
  { unfold fields_to_generate.
    by rewrite (generateData_annotations _ _ _ _ AnnotationSecretAutoGenerate Hrun)
      by key_ne. }
  destruct (generateData_success_inv _ _ _ Hrun)
    as (count & w2 & Hnd & _ & Hloop & _ & _ & _ & Ha & Hmark).
  assert (Hreq : index (Annotations (request_consumed (inst w)))
                   AnnotationSecretRegenerate = None).
  { destruct Hcase as [Hforced|Hnone]; [|by apply request_consumed_no_request].
    unfold request_consumed. rewrite Hforced.
    destruct (index (Annotations (inst w)) AnnotationSecretRegenerate) eqn:Hr;
      [|done].
    simpl. apply index_delete_key_eq. }
  assert (Hmarker : index (Annotations (inst w')) AnnotationSecretSecure
                    = index (Annotations (inst w)) AnnotationSecretSecure
                    \/ index (Annotations (inst w')) AnnotationSecretSecure
                       = Some "yes").
  { destruct (count =? _).
    - destruct Hmark as (m & _ & ->). right. apply lookup_insert_eq.
    - left. rewrite Hmark, Ha. apply request_consumed_other. key_ne. }
  split; [done|]. split.
  - destruct (count =? _).
    + destruct Hmark as (m & Hm & ->). simpl. rewrite lookup_insert_ne by key_ne.
      change (m !! AnnotationSecretRegenerate)
        with (index (Some m) AnnotationSecretRegenerate).
      by rewrite <- Hm, Ha.
    + by rewrite Hmark, Ha.
  - unfold insecure_forced.
    destruct RegenerateInsecure eqn:Hpolicy; [|apply andb_false_r].
    rewrite andb_true_r. apply negb_false_iff, bool_decide_eq_true_2.
    destruct (index (Annotations (inst w)) AnnotationSecretSecure) as [marker|]
      eqn:Hold.
    { destruct Hmarker as [-> | ->]; eauto. }
    assert (Hforced : insecure_forced (inst w) = true).
    { unfold insecure_forced. rewrite Hold, Hpolicy.
      rewrite bool_decide_eq_false_2; [done|]. by intros [? ?]. }
    assert (Hsame : request_consumed (inst w) = inst w)
      by (unfold request_consumed; by rewrite Hforced).
    assert (Hset : regeneration_set (inst w) = fields_to_generate (inst w))
      by (unfold regeneration_set; by rewrite Hforced).
    destruct (generate_keys_count _ _ _ _ _ _ _ _ Hnd Hloop) as [Hall _].
    rewrite Hall, Z.add_0_l, Z.eqb_refl in Hmark.
    + destruct Hmark as (m & _ & ->). simpl. rewrite lookup_insert_eq. eauto.
    + intros key Hin. unfold keeps_field.
      rewrite Hset, (proj2 (contains_true _ _) Hin). apply andb_false_r.
Qed.

(** X13.  Once a pass has returned without error and every declared field holds a
    non-empty value, the next pass over the resource changes nothing and
    reads no entropy; this holds unless the first pass was forced by the
    insecure-regeneration policy while a regeneration request was present,
    which that pass leaves in place. *)
Theorem generateData_converges (w w' : GenState) (res : Result) :
  insecure_forced (inst w) = false
  \/ index (Annotations (inst w)) AnnotationSecretRegenerate = None ->
  StringGenerator_generateData w = Done (res, None) w' ->
  (forall key, key ∈ fields_to_generate (inst w) -> holds_value (inst w') key) ->
  exists res2 err2, StringGenerator_generateData w' = Done (res2, err2) w'.
Proof.
  intros Hcase Hrun Hheld.
  destruct (generateData_settles _ _ _ Hcase Hrun) as (Hfields & Hreq & Hforced).
  apply generateData_settled; [|done..].
  intros key Hin. apply Hheld. by rewrite <- Hfields.
Qed.

(** X14.  Without template annotation, with an encoding that produces text and a
    length that does not count bytes, a field generated in a pass holds
    exactly as many characters as the length asks for. *)
Theorem generated_field_length (s : Secret) (r0 : Rand) (key : string)
    (v : list byte) :
  index (Annotations s) AnnotationSecretTemplate = None ->
  encoding_of s ∈ text_encodings ->
  (parsed_length s).1.2 = false ->
  generated_in_pass s r0 key v ->
  Go.len v = (parsed_length s).1.1.
Proof.
  intros Htemplate Henc Hflag (pre & wi & value & r' & _ & Hrand & ->).
  unfold stored_value, template_of, getTemplateFromAnnotation.
  rewrite Htemplate. simpl. rewrite ReplaceAll_placeholder.
  rewrite Hflag in Hrand.
  pose proof (GenerateRandomString_Done_length _ _ _ _ _ _ Hrand) as HL.
  rewrite (GenerateRandomString_unfold _ _ _ _ HL) in Hrand.
  rewrite (text_encoding_not_raw _ Henc) in Hrand.
  pose proof (rand_Read_length (Z.to_nat (parsed_length s).1.1) (rng wi)) as Hlen.
  pose proof (encode_length (encoding_of s)
                (rand_Read (Z.to_nat (parsed_length s).1.1) (rng wi)).1.1) as Hle.
  destruct ((rand_Read (Z.to_nat (parsed_length s).1.1) (rng wi)).1.2); [done|].
  injection Hrand as <- _. unfold Go.len. rewrite length_take. lia.
Qed.

(** X15.  A regeneration request that names fields (any value but ["yes"]), on a
    resource the policy does not force: a pass that returns without error
    has regenerated the declared fields it names, has left alone the other
    declared fields that held a value, has created no field for a name that
    is not declared, and has removed the request. *)
Theorem generateData_regenerate_subset (w w' : GenState) (res : Result)
    (request : string) :
  index (Annotations (inst w)) AnnotationSecretRegenerate = Some request ->
  request <> "yes" ->
  insecure_forced (inst w) = false ->
  StringGenerator_generateData w = Done (res, None) w' ->
  (forall key, key ∈ fields_to_generate (inst w) -> key ∈ Go.Split_comma request ->
     exists v, generated_in_pass (inst w) (rng w) key v
               /\ index (Data (inst w')) key = Some v)
  /\ (forall key, key ∈ fields_to_generate (inst w) ->
        key ∉ Go.Split_comma request -> holds_value (inst w) key ->
        index (Data (inst w')) key = index (Data (inst w)) key)
  /\ (forall k, k ∉ fields_to_generate (inst w) ->
        index (Data (inst w')) k = index (Data (inst w)) k)
  /\ index (Annotations (inst w')) AnnotationSecretRegenerate = None.
Proof.
  intros Hreq Hyes Hforced Hrun.
  assert (Hset : regeneration_set (inst w) = Go.Split_comma request).
  { unfold regeneration_set. rewrite Hforced, Hreq.
    by rewrite (proj2 (String.eqb_neq request "yes") Hyes). }
  split; [|split; [|split]].
  - intros key Hin Hnamed. eapply generateData_success_fields; [done..|].
    unfold keeps_field. rewrite Hset, (proj2 (contains_true _ _) Hnamed).
    apply andb_false_r.
  - intros key Hin Hother Hheld. eapply generateData_kept; [done|].
    apply keeps_field_true. by rewrite Hset.
  - intros k Hk. by eapply generateData_undeclared.
  - destruct (generateData_success_inv _ _ _ Hrun)
      as (count & w2 & _ & _ & _ & _ & _ & _ & Ha & Hmark).
    assert (Hgone : index (Annotations (request_consumed (inst w)))
                      AnnotationSecretRegenerate = None).
    { unfold request_consumed. rewrite Hforced, Hreq. simpl.
      apply index_delete_key_eq. }
    destruct (count =? _).
    + destruct Hmark as (m & Hm & ->). simpl. rewrite lookup_insert_ne by key_ne.
      change (m !! AnnotationSecretRegenerate)
        with (index (Some m) AnnotationSecretRegenerate).
      by rewrite <- Hm, Ha.
    + by rewrite Hmark, Ha.
Qed.

End GeneratorConvergence.

(** ** More on the reconciliation pass *)

Section ControllerFurther.
Context `{Constants} `{Config} `{Entropy} `{LengthParser} `{Client} `{!Siblings}.

(** The copy the generator is handed: [desired] with an allocated data map. *)
Lemma reconcile_typed_String (now : string) (instance desired : Secret)
    (w : ReconState) :
  reconcile_typed now instance desired TypeString w =
    match StringGenerator_generateData
            {| inst := {| Annotations := Annotations desired;
                          Data := Some (default ∅ (Data desired)) |};
               rng := entropy w |} with
    | Panic => Panic
    | Done (res, Some e) g =>
        Done (res, Some e) {| api := api w; entropy := rng g; updated := updated w |}
    | Done (res, None) g =>
        if negb (DeepEqual (Annotations instance) (Annotations (inst g)))
           || negb (DeepEqual (Data instance) (Data (inst g)))
        then
          match assign (Annotations (inst g)) AnnotationSecretAutoGeneratedAt now with
          | None => Panic
          | Some annotations =>
              Done (match (client_Update {| Annotations := annotations;
                                            Data := Data (inst g) |} (api w)).1 with
                    | Some e => ({| Requeue := true; RequeueAfter := 0 |}, Some e)
                    | None => (Result_zero, None)
                    end)
                   {| api := (client_Update {| Annotations := annotations;
                                               Data := Data (inst g) |} (api w)).2;
                      entropy := rng g;
                      updated := updated w ++ [{| Annotations := annotations;
                                                  Data := Data (inst g) |}] |}
          end
        else Done (Result_zero, None)
                  {| api := api w; entropy := rng g; updated := updated w |}
    end.
Proof.
  unfold reconcile_typed. rewrite select_generator_String.
  assert (Hdesired :
    match Data desired with
    | Some _ => desired
    | None => {| Annotations := Annotations desired; Data := Some ∅ |}
    end = {| Annotations := Annotations desired;
             Data := Some (default ∅ (Data desired)) |})
    by (by destruct desired as [ann [d|]]).
  rewrite Hdesired. unfold bind, call_generateData. simpl.
  destruct (StringGenerator_generateData _) as [[res [e|]] g|]; [done| |done].
  destruct (negb _ || negb _); [|done].
  destruct (assign _ _ _) as [annotations|]; [|done].
  unfold do_Update. simpl.
  destruct (client_Update _ (api w)) as [[e|] api'']; done.
Qed.

(** A pass over a fetched resource of the String type. *)
Lemma Reconcile_String (request now : string) (w : ReconState) (instance : Secret)
    (api' : Api) :
  client_Get request (api w) = (instance, None, api') ->
  index (Annotations instance) AnnotationSecretType = Some TypeString ->
  Reconcile request now w
  = reconcile_typed now instance instance TypeString
      {| api := api'; entropy := entropy w; updated := updated w |}.
Proof.
  intros Hget Htype. unfold Reconcile, bind, do_Get. rewrite Hget, Htype.
  change (default "" (Some TypeString)) with TypeString.
  by rewrite Validate_String.
Qed.

(** X16.  When the fetch fails the pass ends at once, without reading entropy and
    without a call of [Update]: a not-found error counts as success, any
    other error is returned as it is, with the zero-value directive. *)
Theorem Reconcile_fetch_error (request now : string) (w : ReconState)
    (instance : Secret) (e : error) (api' : Api) :
  client_Get request (api w) = (instance, Some e, api') ->
  Reconcile request now w
  = Done (Result_zero, if IsNotFound e then None else Some e)
         {| api := api'; entropy := entropy w; updated := updated w |}.
Proof.
  intros Hget. unfold Reconcile, bind, do_Get. rewrite Hget.
  by destruct (IsNotFound e).
Qed.



(** X18.  On a resource of the String type, an error of [generateData] ends the
    pass: the pass returns the directive and the error of the generator and
    makes no call of [Update], so that nothing generated so far is persisted. *)
Theorem Reconcile_generator_error (request now : string) (w : ReconState)
    (instance : Secret) (api' : Api) (res : Result) (e : error) (g : GenState) :
  client_Get request (api w) = (instance, None, api') ->
  index (Annotations instance) AnnotationSecretType = Some TypeString ->
  StringGenerator_generateData
    {| inst := {| Annotations := Annotations instance;
                  Data := Some (default ∅ (Data instance)) |};
       rng := entropy w |} = Done (res, Some e) g ->
  Reconcile request now w
  = Done (res, Some e) {| api := api'; entropy := rng g; updated := updated w |}.
Proof.
  intros Hget Htype Hgen.
  rewrite (Reconcile_String _ _ _ _ _ Hget Htype), reconcile_typed_String.
  cbn [entropy api updated]. by rewrite Hgen.
Qed.


End ControllerFurther.

Section ControllerSettled.
Context `{Constants} `{Config} `{Entropy} `{LengthParser} `{Client} `{!Siblings}.

(** A pass over a settled resource of the String type makes no call of
    [Update] and reads no entropy. *)
Lemma Reconcile_settled (request now : string) (w : ReconState) (s : Secret)
    (api' : Api) :
  client_Get request (api w) = (s, None, api') ->
  index (Annotations s) AnnotationSecretType = Some TypeString ->
  (forall key, key ∈ fields_to_generate s -> holds_value s key) ->
  index (Annotations s) AnnotationSecretRegenerate = None ->
  insecure_forced s = false ->
  exists res err,
    Reconcile request now w
    = Done (res, err) {| api := api'; entropy := entropy w; updated := updated w |}.
Proof.
  intros Hget Htype Hall Hreq Hforced.
  rewrite (Reconcile_String _ _ _ _ _ Hget Htype), reconcile_typed_String.
  cbn [entropy api updated].
  assert (Hdata : is_Some (Data s)).
  { pose proof (Split_comma_not_nil
                  (default "" (index (Annotations s) AnnotationSecretAutoGenerate)))
      as Hnil.
    fold (fields_to_generate s) in Hnil.
    destruct (fields_to_generate s) as [|key rest] eqn:Hf; [done|].
    destruct (Hall key (list_elem_of_here _ _)) as (v & Hv & _).
    destruct (Data s); [eauto|done]. }
  destruct Hdata as [d Hd].
  assert (Hs : {| Annotations := Annotations s; Data := Some (default ∅ (Data s)) |}
               = s) by (destruct s; simpl in *; by rewrite Hd).
  rewrite Hs.
  destruct (generateData_settled {| inst := s; rng := entropy w |} Hall Hreq Hforced)
    as (res & err & Hrun).
  rewrite Hrun. simpl. destruct err as [e|]; [by eexists _, _|].
  unfold DeepEqual. rewrite !bool_decide_eq_true_2 by done. by eexists _, _.
Qed.

(** X20.  The resource a pass persists does not make the controller persist
    again.  Take a resource of the String type on which [generateData]
    returned without error (not forced by the policy while a request was
    present), every declared field now holding a non-empty value, and stamp
    it: a later pass that fetches this resource makes no call of [Update]
    and reads no entropy. *)
Theorem persisted_resource_settles (desired : Secret) (r : Rand) (res : Result)
    (g : GenState) (m : gmap string string) (stamp : string) :
  index (Annotations desired) AnnotationSecretType = Some TypeString ->
  insecure_forced desired = false
  \/ index (Annotations desired) AnnotationSecretRegenerate = None ->
  StringGenerator_generateData {| inst := desired; rng := r |} = Done (res, None) g ->
  (forall key, key ∈ fields_to_generate desired -> holds_value (inst g) key) ->
  Annotations (inst g) = Some m ->
  forall (request now : string) (w : ReconState) (api' : Api),
    client_Get request (api w)
    = ({| Annotations := Some (<[AnnotationSecretAutoGeneratedAt := stamp]> m);
          Data := Data (inst g) |}, None, api') ->
    exists res' err',
      Reconcile request now w
      = Done (res', err')
             {| api := api'; entropy := entropy w; updated := updated w |}.
Proof.
  intros Htype Hcase Hgen Hheld Hm request now w api' Hget.
  destruct (generateData_settles {| inst := desired; rng := r |} g res Hcase Hgen)
    as (Hfields & Hreq & Hforced).
  simpl in Hfields.
  assert (Hother : forall k, k <> AnnotationSecretAutoGeneratedAt ->
            (<[AnnotationSecretAutoGeneratedAt := stamp]> m) !! k
            = index (Annotations (inst g)) k).
  { intros k Hk. rewrite Hm. simpl. by apply lookup_insert_ne. }
  destruct annotation_keys_ne as (Htr & Hts & Htg & _).
  apply (Reconcile_settled _ _ _ _ _ Hget); simpl.
  - rewrite Hother by done.
    by rewrite (generateData_annotations _ _ _ _ AnnotationSecretType Hgen Htr Hts).
  - intros key Hin. apply Hheld. rewrite <- Hfields.
    revert Hin. unfold fields_to_generate. simpl.
    rewrite Hother; [done|key_ne].
  - rewrite Hother; [done|key_ne].
  - revert Hforced. unfold insecure_forced. simpl.
    rewrite Hother; [done|key_ne].
Qed.




End ControllerSettled.

(** ** The properties on the concrete environment *)

Import Concrete.

Ltac by_computation := vm_compute; reflexivity.
Ltac decided := apply (bool_decide_unpack _); vm_compute; reflexivity.

(** Closes the goal with a proof of a statement that evaluates to it. *)
Ltac evaluates_to proof := vm_cast_no_check proof.

Lemma Reconcile_unmanaged_witness :
  Reconcile request now (world foreign tape64)
  = Done (Result_zero, None) (world foreign tape64).
Proof.
  assert (Hget : client_Get request (api (world foreign tape64))
                 = (foreign, None, Some foreign)) by reflexivity.
  assert (Htype : index (Annotations foreign) AnnotationSecretType = None)
    by by_computation.
  assert (Hauto : index (Annotations foreign) AnnotationSecretAutoGenerate = None)
    by by_computation.
  evaluates_to (Reconcile_unmanaged request now (world foreign tape64) foreign
                  (Some foreign) Hget (or_introl Htype) Hauto).
Defined.

(** C1, as stated, fails.  The resource [mistyped] has the invalid type
    ["foo"] and no autogenerate annotation; the pass over it is no no-op: it
    defaults the type, generates a value under the empty field name from
    forty bytes of entropy, sets the secure marker, and calls [Update]. *)
Lemma Reconcile_invalid_type_counterexample :
  index (Annotations mistyped) AnnotationSecretType = Some "foo"
  /\ Validate "foo" <> None
  /\ index (Annotations mistyped) AnnotationSecretAutoGenerate = None
  /\ Reconcile request now (world mistyped tape64)
     = Done (Result_zero, None)
            {| api := Some mistyped_persisted; entropy := drop 40 tape64;
               updated := [mistyped_persisted] |}.
Proof.
  split; [by_computation|]. split; [by vm_compute|].
  split; by_computation.
Qed.

Lemma GenerateRandomString_text_length_witness :
  (exists value r',
      GenerateRandomString 10 "base32" false tape64 = Done (value, None) r')
  /\ (forall value r',
        GenerateRandomString 10 "base32" false tape64 = Done (value, None) r' ->
        Go.len value = 10
        /\ value = take (Z.to_nat 10)
                     (encode "base32" (rand_Read (Z.to_nat 10) tape64).1.1)).
Proof.
  destruct (GenerateRandomString_text_length 10 "base32" tape64) as [Hret Hlen].
  - lia.
  - decided.
  - split; [|exact Hlen]. apply Hret. by_computation.
Defined.

Lemma GenerateRandomString_raw_witness :
  (exists value r',
      GenerateRandomString 4 "raw" false tape64 = Done (value, None) r')
  /\ (forall value r',
        GenerateRandomString 4 "raw" false tape64 = Done (value, None) r' ->
        value = (rand_Read (Z.to_nat 4) tape64).1.1 /\ Go.len value = 4).
Proof.
  destruct (GenerateRandomString_raw 4 false tape64) as [Hret Hraw].
  - lia.
  - split; [|exact Hraw]. apply Hret. by_computation.
Defined.

Lemma xy_run :
  StringGenerator_generateData (gen xy tape64)
  = Done (Result_zero, None) (gen xy_after (drop 40 tape64)).
Proof. by_computation. Defined.

Lemma generateData_declared_field_witness :
  index (Data xy_after) "x" = index (Data xy) "x"
  /\ exists v, generated_in_pass xy tape64 "y" v
               /\ index (Data xy_after) "y" = Some v.
Proof.
  assert (Hx : "x" ∈ fields_to_generate (inst (gen xy tape64))) by decided.
  assert (Hy : "y" ∈ fields_to_generate (inst (gen xy tape64))) by decided.
  destruct (generateData_declared_field _ _ _ _ "x" xy_run Hx) as [Hkept _].
  destruct (generateData_declared_field _ _ _ _ "y" xy_run Hy) as [_ Hfresh].
  split.
  - assert (Hset : holds_value (inst (gen xy tape64)) "x"
                   /\ "x" ∉ regeneration_set (inst (gen xy tape64))).
    { split; [|decided]. exists (Go.bytes_of "v"). split; [by_computation|done]. }
    evaluates_to (Hkept Hset).
  - assert (Hunset : ~ (holds_value (inst (gen xy tape64)) "y"
                        /\ "y" ∉ regeneration_set (inst (gen xy tape64)))).
    { intros [(v & Hv & _) _]. vm_compute in Hv. discriminate. }
    evaluates_to (Hfresh Hunset eq_refl).
Defined.

(** C3, as stated, fails.  On [xy] the field [y] is declared and holds no
    value; with an entropy source that fails, [generateData] returns the
    error and [y] has received nothing. *)
Lemma generateData_declared_field_counterexample :
  "y" ∈ fields_to_generate xy
  /\ index (Data xy) "y" = None
  /\ StringGenerator_generateData (gen xy [])
     = Done ({| Requeue := false; RequeueAfter := Second * 30 |},
             Some (errorString "entropy source exhausted")) (gen xy [])
  /\ index (Data (inst (gen xy []))) "y" = None.
Proof.
  split; [decided|]. split; [by_computation|]. split; by_computation.
Qed.

Lemma generateData_duplicate_field_witness :
  exists err,
    StringGenerator_generateData (gen twice tape64)
    = Done (Result_zero, Some err) (gen twice tape64).
Proof. apply (generateData_duplicate_field (gen twice tape64)). decided. Defined.

Lemma renew_run :
  StringGenerator_generateData (gen renew tape64)
  = Done (Result_zero, None) (gen renew_after (drop 16 tape64)).
Proof. by_computation. Defined.

Lemma generateData_regenerate_yes_witness :
  (forall key, key ∈ fields_to_generate renew ->
     exists v, generated_in_pass renew tape64 key v
               /\ index (Data renew_after) key = Some v)
  /\ index (Annotations renew_after) AnnotationSecretRegenerate = None.
Proof.
  assert (Hyes : index (Annotations (inst (gen renew tape64)))
                   AnnotationSecretRegenerate = Some "yes") by by_computation.
  evaluates_to (generateData_regenerate_yes (gen renew tape64)
                  (gen renew_after (drop 16 tape64)) Result_zero Hyes
                  (or_intror eq_refl) renew_run).
Defined.

Lemma settled_resource_idempotent_witness :
  (forall r : Rand, exists res1 err1 w1 res2 err2 w2,
      StringGenerator_generateData (gen settled r) = Done (res1, err1) w1
      /\ StringGenerator_generateData w1 = Done (res2, err2) w2
      /\ Data (inst w2) = Data (inst w1)
      /\ Annotations (inst w2) = Annotations (inst w1)
      /\ inst w1 = settled)
  /\ exists res err,
      Reconcile request now (world settled tape64)
      = Done (res, err) (world settled tape64).
Proof.
  destruct (settled_resource_idempotent settled) as [Htwice Hskip].
  - intros key Hin. vm_compute in Hin.
    apply list_elem_of_singleton in Hin as ->.
    exists (Go.bytes_of "v"). split; [by_computation|done].
  - by_computation.
  - by_computation.
  - split; [exact Htwice|].
    assert (Hget : client_Get request (api (world settled tape64))
                   = (settled, None, Some settled)) by reflexivity.
    assert (Htype : index (Annotations settled) AnnotationSecretType
                    = Some TypeString) by by_computation.
    evaluates_to (Hskip request now (world settled tape64) (Some settled) Hget Htype).
Defined.

Lemma generateData_retry_directive_witness :
  (StringGenerator_generateData (gen xyz tape64)
   = Done ({| Requeue := false; RequeueAfter := Second * 30 |},
           Some (errorString "entropy source exhausted"))
          (gen xyz_after (drop 40 tape64))
   /\ exists v, generated_in_pass xyz tape64 "y" v
                /\ index (Data xyz_after) "y" = Some v)
  /\ exists w', StringGenerator_generateData (gen xy tape64)
                = Done (Result_zero, None) w'.
Proof.
  split.
  - destruct (generateData_retry_directive (gen xyz tape64)) as [Hfail _].
    destruct (Hfail ["x"; "y"] "z" (gen xyz_after (drop 40 tape64)) []
                (errorString "entropy source exhausted") (drop 40 tape64))
      as [Hrun Hearlier].
    + exists [], 1.
      split; [by_computation|]. split; [by_computation|].
      split; [by_computation|]. split; by_computation.
    + by_computation.
    + assert (Hy : "y" ∈ ["x"; "y"]) by decided.
      assert (Hunset : keeps_field (regeneration_set (inst (gen xyz tape64)))
                         (inst (gen xyz tape64)) "y" = false) by by_computation.
      split; [evaluates_to Hrun|evaluates_to (Hearlier "y" Hy Hunset)].
  - destruct (generateData_retry_directive (gen xy tape64)) as [_ Hok].
    destruct (Hok 1 (gen xy_after (drop 40 tape64))) as [Hret _];
      [by_computation..|].
    assert (Halloc : is_Some (Annotations (inst (gen xy tape64))))
      by (eexists; reflexivity).
    exact (Hret Halloc).
Defined.

Lemma bare_run :
  StringGenerator_generateData (gen bare tape64)
  = Done (Result_zero, None) (gen bare_after (drop 40 tape64)).
Proof. by_computation. Defined.

Lemma generateData_without_field_list_witness :
  fields_to_generate bare = [""]
  /\ (exists value r',
         GenerateRandomString 40 "base64" false tape64 = Done (value, None) r'
         /\ index (Data bare_after) "" = Some (stored_value bare value))
  /\ index (Annotations bare_after) AnnotationSecretSecure = Some "yes".
Proof.
  destruct (generateData_without_field_list (gen bare tape64)) as [Hfields Hpass].
  - left. by_computation.
  - split; [exact Hfields|].
    assert (Hunset : ~ (holds_value (inst (gen bare tape64)) ""
                        /\ "" ∉ regeneration_set (inst (gen bare tape64)))).
    { intros [(v & Hv & _) _]. vm_compute in Hv. discriminate. }
    evaluates_to (Hpass Result_zero (gen bare_after (drop 40 tape64)) bare_run Hunset).
Defined.

(** C9, as stated, fails.  The resource [bare_set] has no autogenerate
    annotation and holds a value under the empty field name; the pass of
    [generateData] over it returns without error, writes nothing and sets no
    secure marker. *)
Lemma generateData_without_field_list_counterexample :
  index (Annotations bare_set) AnnotationSecretAutoGenerate = None
  /\ StringGenerator_generateData (gen bare_set tape64)
     = Done (Result_zero, None) (gen bare_set tape64)
  /\ index (Data bare_set) "" = Some (Go.bytes_of "v")
  /\ index (Annotations bare_set) AnnotationSecretSecure = None.
Proof.
  split; [by_computation|]. split; [by_computation|]. split; by_computation.
Qed.

Lemma Reconcile_defaults_type_witness :
  exists d result err api'',
    Reconcile request now (world untyped tape64)
    = Done (result, err) {| api := api''; entropy := tape64; updated := [d] |}
    /\ Data d = Data untyped
    /\ index (Annotations d) AnnotationSecretType = Some "string"
    /\ index (Annotations d) AnnotationSecretAutoGeneratedAt = Some now.
Proof.
  pose (m := list_to_map [(AnnotationSecretAutoGenerate, "x")] : gmap string string).
  pose (g := gen (secret [(AnnotationSecretAutoGenerate, "x");
                          (AnnotationSecretType, "string")] [("x", "v")]) tape64).
  assert (Hget : client_Get request (api (world untyped tape64))
                 = (untyped, None, Some untyped)) by reflexivity.
  assert (Hm : Annotations untyped = Some m) by reflexivity.
  assert (Hauto : is_Some (m !! AnnotationSecretAutoGenerate))
    by (exists "x"; by_computation).
  assert (Hinvalid : Validate (default "" (m !! AnnotationSecretType)) <> None)
    by (by vm_compute).
  assert (Hgen :
    StringGenerator_generateData
      {| inst := {| Annotations := Some (<[AnnotationSecretType := "string"]> m);
                    Data := Some (default ∅ (Data untyped)) |};
         rng := entropy (world untyped tape64) |} = Done (Result_zero, None) g)
    by by_computation.
  evaluates_to (Reconcile_defaults_type request now (world untyped tape64) untyped
                  (Some untyped) m Result_zero g Hget Hm Hauto Hinvalid Hgen).
Defined.

(** C10, as stated, fails.  The resource [untyped_twice] has no type and an
    autogenerate annotation, which names a field twice: the pass returns the
    error of [generateData] and makes no call of [Update]. *)
Lemma Reconcile_defaults_type_counterexample :
  index (Annotations untyped_twice) AnnotationSecretType = None
  /\ index (Annotations untyped_twice) AnnotationSecretAutoGenerate = Some "a,a"
  /\ Reconcile request now (world untyped_twice tape64)
     = Done (Result_zero, Some (errorString "duplicate element a found"))
            (world untyped_twice tape64)
  /\ updated (world untyped_twice tape64) = [].
Proof.
  split; [by_computation|]. split; [by_computation|]. split; by_computation.
Qed.

(** ** The further properties on the concrete environment *)

Import Cases.

Lemma GenerateRandomString_byte_length_witness :
  (exists value r', GenerateRandomString 5 "hex" true tape64 = Done (value, None) r')
  /\ (forall value r',
        GenerateRandomString 5 "hex" true tape64 = Done (value, None) r' ->
        value = encode "hex" (rand_Read (Z.to_nat 5) tape64).1.1
        /\ Go.len value = encoded_length "hex" 5).
Proof.
  destruct (GenerateRandomString_byte_length 5 "hex" tape64) as [Hret Hfull];
    [lia|done|].
  split; [|exact Hfull]. apply Hret. by_computation.
Defined.

Lemma base64url_run :
  GenerateRandomString 10 "base64url" false tape64
  = Done (Go.bytes_of "AAECAwQFBg", None) (drop 10 tape64).
Proof. by_computation. Defined.

Lemma GenerateRandomString_alphabet_witness :
  Forall (fun c => c ∈ encoding_alphabet "base64url") (Go.bytes_of "AAECAwQFBg").
Proof.
  apply (GenerateRandomString_alphabet 10 "base64url" false tape64 (drop 10 tape64)
           (Go.bytes_of "AAECAwQFBg")); [lia|done|exact base64url_run].
Defined.


Lemma GenerateRandomString_unknown_encoding_witness :
  GenerateRandomString 10 "utf8" false tape64
  = GenerateRandomString 10 "base64" false tape64.
Proof. apply (GenerateRandomString_unknown_encoding 10 "utf8" false tape64). decided. Defined.



Lemma ensureUniqueness_first_duplicate_witness :
  exists pre e post,
    ["a"; "b"; "a"; "c"] = (pre ++ e :: post)%list /\ NoDup pre /\ e ∈ pre
    /\ errorString "duplicate element a found"
       = errorString ("duplicate element " ++ e ++ " found").
Proof.
  apply (proj2 (ensureUniqueness_first_duplicate ["a"; "b"; "a"; "c"])
           (errorString "duplicate element a found")).
  by_computation.
Defined.

Lemma forced_run :
  StringGenerator_generateData (H0 := policy_on) (gen forced tape64)
  = Done (Result_zero, None) (gen forced_after (drop 16 tape64)).
Proof. by_computation. Defined.

Lemma generateData_insecure_forced_witness :
  (forall key, key ∈ fields_to_generate (inst (gen forced tape64)) ->
     exists v, generated_in_pass (H0 := policy_on) (inst (gen forced tape64))
                 (rng (gen forced tape64)) key v
               /\ index (Data (inst (gen forced_after (drop 16 tape64)))) key = Some v)
  /\ index (Annotations (inst (gen forced_after (drop 16 tape64))))
       AnnotationSecretSecure = Some "yes"
  /\ index (Annotations (inst (gen forced_after (drop 16 tape64))))
       AnnotationSecretRegenerate
     = index (Annotations (inst (gen forced tape64))) AnnotationSecretRegenerate.
Proof.
  apply (generateData_insecure_forced (H0 := policy_on) (gen forced tape64)
           (gen forced_after (drop 16 tape64)) Result_zero);
    [by_computation|reflexivity|exact forced_run].
Defined.

Lemma generateData_secure_marker_witness :
  index (Annotations (inst (gen renew_after (drop 16 tape64)))) AnnotationSecretSecure
  = Some "yes"
  /\ index (Annotations (inst (gen xy_after (drop 40 tape64)))) AnnotationSecretSecure
     = index (Annotations (inst (gen xy tape64))) AnnotationSecretSecure.
Proof.
  destruct (generateData_secure_marker _ _ _ renew_run) as [Hall _].
  destruct (generateData_secure_marker _ _ _ xy_run) as [_ Hsome].
  split.
  - apply Hall. intros key Hin [_ Hnot]. apply Hnot. revert Hin.
    vm_compute. exact (fun Hin => Hin).
  - apply Hsome. exists "x". split; [decided|]. split; [|decided].
    exists (Go.bytes_of "v"). split; [by_computation|done].
Defined.

Lemma generateData_frame_witness :
  (forall k, k ∉ fields_to_generate (inst (gen xy tape64)) ->
     index (Data (inst (gen xy_after (drop 40 tape64)))) k
     = index (Data (inst (gen xy tape64))) k)
  /\ (forall k, is_Some (index (Data (inst (gen xy tape64))) k) ->
        is_Some (index (Data (inst (gen xy_after (drop 40 tape64)))) k))
  /\ (forall k, k <> AnnotationSecretRegenerate -> k <> AnnotationSecretSecure ->
        index (Annotations (inst (gen xy_after (drop 40 tape64)))) k
        = index (Annotations (inst (gen xy tape64))) k)
  /\ (is_Some (index (Annotations (inst (gen xy tape64))) AnnotationSecretSecure) ->
      is_Some (index (Annotations (inst (gen xy_after (drop 40 tape64))))
                     AnnotationSecretSecure))
  /\ (index (Annotations (inst (gen xy tape64))) AnnotationSecretRegenerate = None ->
      index (Annotations (inst (gen xy_after (drop 40 tape64))))
        AnnotationSecretRegenerate = None).
Proof. exact (generateData_frame _ _ _ _ xy_run). Defined.

Lemma xyz_run :
  StringGenerator_generateData (gen xyz tape64)
  = Done ({| Requeue := false; RequeueAfter := Second * 30 |},
          Some (errorString "entropy source exhausted"))
         (gen xyz_after (drop 40 tape64)).
Proof. by_computation. Defined.

Lemma generateData_error_cases_witness :
  (ensureUniqueness (fields_to_generate (inst (gen xyz tape64)))
   = Some (errorString "entropy source exhausted")
   /\ {| Requeue := false; RequeueAfter := Second * 30 |} = Result_zero
   /\ gen xyz_after (drop 40 tape64) = gen xyz tape64)
  \/ (ensureUniqueness (fields_to_generate (inst (gen xyz tape64))) = None
      /\ (parsed_length (inst (gen xyz tape64))).2
         = Some (errorString "entropy source exhausted")
      /\ {| Requeue := false; RequeueAfter := Second * 30 |} = Result_zero
      /\ gen xyz_after (drop 40 tape64)
         = {| inst := request_consumed (inst (gen xyz tape64));
              rng := rng (gen xyz tape64) |})
  \/ ({| Requeue := false; RequeueAfter := Second * 30 |}
      = {| Requeue := false; RequeueAfter := Second * 30 |}
      /\ exists pre key wi value r',
          pass_reaches (inst (gen xyz tape64)) (rng (gen xyz tape64)) pre key wi
          /\ GenerateRandomString (parsed_length (inst (gen xyz tape64))).1.1
               (encoding_of (inst (gen xyz tape64)))
               (parsed_length (inst (gen xyz tape64))).1.2 (rng wi)
             = Done (value, Some (errorString "entropy source exhausted")) r'
          /\ gen xyz_after (drop 40 tape64) = {| inst := inst wi; rng := r' |}).
Proof. exact (generateData_error_cases _ _ _ _ xyz_run). Defined.


Lemma generateData_converges_witness :
  exists res2 err2,
    StringGenerator_generateData (gen xy_after (drop 40 tape64))
    = Done (res2, err2) (gen xy_after (drop 40 tape64)).
Proof.
  apply (generateData_converges (gen xy tape64) (gen xy_after (drop 40 tape64))
           Result_zero); [left; by_computation|exact xy_run|].
  intros key Hin. vm_compute in Hin.
  apply elem_of_cons in Hin as [-> | Hin].
  - exists (Go.bytes_of "v"). split; [by_computation|done].
  - apply list_elem_of_singleton in Hin as ->.
    exists (Go.bytes_of first40). split; [by_computation|done].
Defined.

Lemma generated_field_length_witness :
  exists v, index (Data (inst (gen xy_after (drop 40 tape64)))) "y" = Some v
            /\ Go.len v = (parsed_length (inst (gen xy tape64))).1.1.
Proof.
  destruct (generateData_success_fields (gen xy tape64) _ Result_zero "y" xy_run)
    as (v & Hgen & Hv); [decided|by_computation|].
  exists v. split; [exact Hv|].
  apply (generated_field_length (inst (gen xy tape64)) (rng (gen xy tape64)) "y" v);
    [by_computation|decided|by_computation|exact Hgen].
Defined.

Lemma partly_run :
  StringGenerator_generateData (gen partly tape64)
  = Done (Result_zero, None) (gen partly_after (drop 8 tape64)).
Proof. by_computation. Defined.

Lemma generateData_regenerate_subset_witness :
  (forall key, key ∈ fields_to_generate (inst (gen partly tape64)) ->
     key ∈ Go.Split_comma "y,zz" ->
     exists v, generated_in_pass (inst (gen partly tape64)) (rng (gen partly tape64))
                 key v
               /\ index (Data (inst (gen partly_after (drop 8 tape64)))) key = Some v)
  /\ (forall key, key ∈ fields_to_generate (inst (gen partly tape64)) ->
        key ∉ Go.Split_comma "y,zz" -> holds_value (inst (gen partly tape64)) key ->
        index (Data (inst (gen partly_after (drop 8 tape64)))) key
        = index (Data (inst (gen partly tape64))) key)
  /\ (forall k, k ∉ fields_to_generate (inst (gen partly tape64)) ->
        index (Data (inst (gen partly_after (drop 8 tape64)))) k
        = index (Data (inst (gen partly tape64))) k)
  /\ index (Annotations (inst (gen partly_after (drop 8 tape64))))
       AnnotationSecretRegenerate = None.
Proof.
  apply (generateData_regenerate_subset (gen partly tape64)
           (gen partly_after (drop 8 tape64)) Result_zero "y,zz");
    [by_computation|done|by_computation|exact partly_run].
Defined.

Lemma Reconcile_fetch_error_witness :
  Reconcile request now (nowhere tape64)
  = Done (Result_zero, None) (nowhere tape64).
Proof.
  assert (Hget : client_Get request (api (nowhere tape64))
                 = ({| Annotations := None; Data := None |},
                    Some (StatusError true "not found"), None)) by reflexivity.
  evaluates_to (Reconcile_fetch_error request now (nowhere tape64) _ _ _ Hget).
Defined.



Lemma Reconcile_generator_error_witness :
  Reconcile request now (world typed dry)
  = Done ({| Requeue := false; RequeueAfter := Second * 30 |},
          Some (errorString "entropy source exhausted"))
         {| api := Some typed; entropy := rng (gen typed dry);
            updated := updated (world typed dry) |}.
Proof.
  apply (Reconcile_generator_error request now (world typed dry) typed (Some typed)
           _ _ (gen typed dry)); [reflexivity|by_computation|by_computation].
Defined.



Lemma persisted_resource_settles_witness :
  exists res' err',
    Reconcile request now (world typed_persisted (drop 8 tape64))
    = Done (res', err')
           {| api := Some typed_persisted;
              entropy := entropy (world typed_persisted (drop 8 tape64));
              updated := updated (world typed_persisted (drop 8 tape64)) |}.
Proof.
  pose (m := list_to_map
               [(AnnotationSecretType, "string"); (AnnotationSecretAutoGenerate, "x");
                (AnnotationSecretLength, "8"); (AnnotationSecretSecure, "yes")]
             : gmap string string).
  assert (Hrun : StringGenerator_generateData {| inst := typed; rng := tape64 |}
                 = Done (Result_zero, None) (gen typed_after (drop 8 tape64)))
    by by_computation.
  apply (persisted_resource_settles typed tape64 Result_zero
           (gen typed_after (drop 8 tape64)) m now).
  - by_computation.
  - left. by_computation.
  - exact Hrun.
  - intros key Hin. vm_compute in Hin. apply list_elem_of_singleton in Hin as ->.
    exists (Go.bytes_of "AAECAwQF"). split; [by_computation|done].
  - reflexivity.
  - by_computation.
Defined.

